(** * FlightME: search-form validation, mock flight service and insight panel

  A shallow embedding of the TypeScript/JavaScript sources of FlightME:

  - the legacy page script (airport-code input handler and the submit
    handler of [flightSearchForm]);
  - [flightService.ts] (mock price trends, mock insights, [searchFlights]);
  - [FlightSearch.tsx] ([handleSearch]);
  - [PriceAnalysis.tsx] and [PriceChart.tsx] (fallback data).

  JavaScript strings are modelled by [string]; every character stands for
  one code unit, and case mapping and white space are those of the ASCII
  range.  Time values are integers (milliseconds since the epoch, as in a
  JavaScript [Date]); the host's clock and time zone are explicit. *)

From Stdlib Require Import ZArith List Bool Ascii String Lia Sorted.
Import ListNotations.

Open Scope string_scope.
Open Scope Z_scope.

(* ===================================================================== *)
(** ** JavaScript string primitives used by the sources *)
(* ===================================================================== *)

Module JsString.

Definition code (c : ascii) : Z := Z.of_nat (nat_of_ascii c).

Definition isLower (c : ascii) : bool := (97 <=? code c) && (code c <=? 122).
Definition isUpper (c : ascii) : bool := (65 <=? code c) && (code c <=? 90).
Definition isDigit (c : ascii) : bool := (48 <=? code c) && (code c <=? 57).

(** White space and line terminators stripped by [String.prototype.trim],
    among the code units a character can stand for: TAB, LF, VT, FF, CR,
    SP and the no-break space U+00A0.  (The others, U+FEFF, U+2028,
    U+2029 and the space separators from U+1680 on, lie beyond 255.) *)
Definition isSpace (c : ascii) : bool :=
  ((9 <=? code c) && (code c <=? 13)) || (code c =? 32) || (code c =? 160).

Definition upperChar (c : ascii) : ascii :=
  if isLower c then ascii_of_nat (nat_of_ascii c - 32) else c.

(** [s.toUpperCase()] *)
Fixpoint toUpperCase (s : string) : string :=
  match s with
  | EmptyString => EmptyString
  | String c s' => String (upperChar c) (toUpperCase s')
  end.

(** [s.slice(from, to)] for non-negative indices. *)
Definition slice (from to : nat) (s : string) : string :=
  substring from (to - from) s.

Fixpoint trimStart (s : string) : string :=
  match s with
  | String c s' => if isSpace c then trimStart s' else s
  | EmptyString => EmptyString
  end.

(** Drops the white space at the end: a character is kept when it is not
    white space or when something is kept after it. *)
Fixpoint trimEnd (s : string) : string :=
  match s with
  | EmptyString => EmptyString
  | String c s' =>
      match trimEnd s' with
      | EmptyString => if isSpace c then EmptyString else String c EmptyString
      | rest => String c rest
      end
  end.

(** [s.trim()] *)
Definition trim (s : string) : string := trimEnd (trimStart s).

(** [s.includes(sub)] *)
Definition includes (sub s : string) : bool :=
  match index 0 sub s with
  | Some _ => true
  | None => false
  end.

(** [!s] on a string: only the empty string is falsy. *)
Definition isEmpty (s : string) : bool :=
  match s with EmptyString => true | _ => false end.

End JsString.

Import JsString.

(* ===================================================================== *)
(** ** JavaScript dates *)
(* ===================================================================== *)

(** The calendar arithmetic of ECMAScript's [Date] objects (Day Number and
    Time within Day, Year Number, Month Number, Date Number, MakeDay,
    MakeDate), the local-time conversions, and the methods the sources call.
    [TimeClip] is left out: the time values that occur stay within a few
    years of the clock reading. *)

Module JsDate.

Definition msPerDay : Z := 86400000.
Definition msPerMinute : Z := 60000.

Definition Day (t : Z) : Z := t / msPerDay.
Definition TimeWithinDay (t : Z) : Z := t mod msPerDay.

Definition isLeapYear (y : Z) : bool :=
  (y mod 4 =? 0) && (negb (y mod 100 =? 0) || (y mod 400 =? 0)).

Definition DaysInYear (y : Z) : Z := if isLeapYear y then 366 else 365.

Definition DayFromYear (y : Z) : Z :=
  365 * (y - 1970) + (y - 1969) / 4 - (y - 1901) / 100 + (y - 1601) / 400.

(** The year of a day number: the largest [y] with [DayFromYear y <= d].
    The estimate by the mean year length is off by at most one. *)
Definition YearFromDay (d : Z) : Z :=
  let y := 1970 + (400 * d) / 146097 in
  if d <? DayFromYear y then y - 1
  else if DayFromYear (y + 1) <=? d then y + 1
  else y.

Definition DayWithinYear (d : Z) : Z := d - DayFromYear (YearFromDay d).

(** Days of the year before month [m] (0 = January). *)
Definition daysBeforeMonth (leap : bool) (m : Z) : Z :=
  let l := if leap then 1 else 0 in
  if m <=? 0 then 0
  else if m =? 1 then 31
  else if m =? 2 then 59 + l
  else if m =? 3 then 90 + l
  else if m =? 4 then 120 + l
  else if m =? 5 then 151 + l
  else if m =? 6 then 181 + l
  else if m =? 7 then 212 + l
  else if m =? 8 then 243 + l
  else if m =? 9 then 273 + l
  else if m =? 10 then 304 + l
  else 334 + l.

Definition daysInMonth (leap : bool) (m : Z) : Z :=
  if m =? 1 then (if leap then 29 else 28)
  else if (m =? 3) || (m =? 5) || (m =? 8) || (m =? 10) then 30
  else 31.

Definition DaysInMonth (y m : Z) : Z := daysInMonth (isLeapYear y) m.

(** Month Number (0 = January) of a day within a year. *)
Definition monthOfDayWithinYear (leap : bool) (dwy : Z) : Z :=
  let l := if leap then 1 else 0 in
  if dwy <? 31 then 0
  else if dwy <? 59 + l then 1
  else if dwy <? 90 + l then 2
  else if dwy <? 120 + l then 3
  else if dwy <? 151 + l then 4
  else if dwy <? 181 + l then 5
  else if dwy <? 212 + l then 6
  else if dwy <? 243 + l then 7
  else if dwy <? 273 + l then 8
  else if dwy <? 304 + l then 9
  else if dwy <? 334 + l then 10
  else 11.

Definition MonthFromDay (d : Z) : Z :=
  monthOfDayWithinYear (isLeapYear (YearFromDay d)) (DayWithinYear d).

(** Date Number (day of the month, from 1). *)
Definition DateFromDay (d : Z) : Z :=
  DayWithinYear d
  - daysBeforeMonth (isLeapYear (YearFromDay d)) (MonthFromDay d) + 1.

(** [MakeDay(year, month, date)]: months beyond 0..11 carry into the year,
    and the date counts on from the first of the month, so that day 29 of
    February in a common year is the first of March. *)
Definition MakeDay (year month date : Z) : Z :=
  let ym := year + month / 12 in
  let mn := month mod 12 in
  DayFromYear ym + daysBeforeMonth (isLeapYear ym) mn + date - 1.

Definition MakeDate (day time : Z) : Z := day * msPerDay + time.

(** The host: the instant read by [new Date()]; the offset of its time zone
    as [getTimezoneOffset()] reports it, in minutes, UTC minus local time
    (one constant offset: no daylight-saving change within the times at
    hand); and what [Date.parse] makes of a string that is not a date in
    the form YYYY-MM-DD, which the language leaves to the implementation
    ([None] is NaN). *)
Record Host : Type := {
  now : Z;
  tzOffset : Z;
  parseOther : string -> option Z
}.

Definition LocalTime (h : Host) (t : Z) : Z := t - tzOffset h * msPerMinute.
Definition UTC (h : Host) (t : Z) : Z := t + tzOffset h * msPerMinute.

(** [d.getFullYear()], [d.getDate()] *)
Definition getFullYear (h : Host) (t : Z) : Z := YearFromDay (Day (LocalTime h t)).
Definition getDate (h : Host) (t : Z) : Z := DateFromDay (Day (LocalTime h t)).

(** [d.setHours(0, 0, 0, 0)] *)
Definition setHours0 (h : Host) (t : Z) : Z :=
  UTC h (MakeDate (Day (LocalTime h t)) 0).

(** [d.setFullYear(y)] *)
Definition setFullYear (h : Host) (t : Z) (y : Z) : Z :=
  let lt := LocalTime h t in
  UTC h (MakeDate (MakeDay y (MonthFromDay (Day lt)) (DateFromDay (Day lt)))
                  (TimeWithinDay lt)).

(** [d.setDate(dt)].  As the other local-time methods here it works with
    the one offset of the host: it is the method of the language wherever
    no daylight-saving change lies between the date and the date set. *)
Definition setDate (h : Host) (t : Z) (dt : Z) : Z :=
  let lt := LocalTime h t in
  UTC h (MakeDate (MakeDay (YearFromDay (Day lt)) (MonthFromDay (Day lt)) dt)
                  (TimeWithinDay lt)).

(** Decimal digits: [digits k n] is [n] written with exactly [k] digits. *)
Definition digitChar (n : Z) : ascii := ascii_of_nat (Z.to_nat (48 + n mod 10)).

Fixpoint digits (k : nat) (n : Z) : string :=
  match k with
  | O => EmptyString
  | S k' => digits k' (n / 10) ++ String (digitChar n) EmptyString
  end.

Definition digitVal (c : ascii) : option Z :=
  if isDigit c then Some (code c - 48) else None.

Fixpoint parseDigits (acc : Z) (s : string) : option Z :=
  match s with
  | EmptyString => Some acc
  | String c s' =>
      match digitVal c with
      | Some v => parseDigits (10 * acc + v) s'
      | None => None
      end
  end.

(** The year of the date-time string format: four digits for the years 0
    to 9999, a sign and six digits otherwise. *)
Definition yearString (y : Z) : string :=
  if (0 <=? y) && (y <=? 9999) then digits 4 y
  else (if y <? 0 then "-" else "+") ++ digits 6 (Z.abs y).

Definition isoDate (d : Z) : string :=
  yearString (YearFromDay d) ++ "-" ++ digits 2 (MonthFromDay d + 1)
  ++ "-" ++ digits 2 (DateFromDay d).

Definition isoTime (ms : Z) : string :=
  digits 2 (ms / 3600000) ++ ":" ++ digits 2 ((ms / 60000) mod 60) ++ ":"
  ++ digits 2 ((ms / 1000) mod 60) ++ "." ++ digits 3 (ms mod 1000).

(** [d.toISOString()]: always in UTC. *)
Definition toISOString (t : Z) : string :=
  isoDate (Day t) ++ "T" ++ isoTime (TimeWithinDay t) ++ "Z".

(** [s.split('T')[0]]: what comes before the first T. *)
Fixpoint splitT0 (s : string) : string :=
  match s with
  | EmptyString => EmptyString
  | String c s' => if Ascii.eqb c "T" then EmptyString else String c (splitT0 s')
  end.

(** The date-only form YYYY-MM-DD of the date-time string format, read as
    midnight UTC. *)
Definition parseIsoDate (s : string) : option Z :=
  if negb (length s =? 10)%nat then None
  else if negb (String.eqb (substring 4 1 s) "-" && String.eqb (substring 7 1 s) "-")
  then None
  else
    match parseDigits 0 (substring 0 4 s),
          parseDigits 0 (substring 5 2 s),
          parseDigits 0 (substring 8 2 s) with
    | Some y, Some m, Some d =>
        if (1 <=? m) && (m <=? 12) && (1 <=? d) && (d <=? DaysInMonth y (m - 1))
        then Some (MakeDate (MakeDay y (m - 1) d) 0)
        else None
    | _, _, _ => None
    end.

(** [new Date(s).getTime()]; [None] is NaN (an Invalid Date). *)
Definition parse (h : Host) (s : string) : option Z :=
  match parseIsoDate s with
  | Some t => Some t
  | None => parseOther h s
  end.

(** [a < b] and [a > b] where [a] may be an Invalid Date: every comparison
    with NaN is false. *)
Definition ltDate (a : option Z) (b : Z) : bool :=
  match a with Some t => t <? b | None => false end.

Definition gtDate (a : option Z) (b : Z) : bool :=
  match a with Some t => b <? t | None => false end.

End JsDate.

Import JsDate.

(* ===================================================================== *)
(** ** Legacy page script *)
(* ===================================================================== *)

Module Legacy.

(** The [input] listener of the [origin] and [destination] fields:
<<
    this.value = this.value.toUpperCase();
    if (this.value.length > 3) { this.value = this.value.slice(0, 3); }
>>
    as a function from the field's value to its new value. *)
Definition airportInputHandler (value : string) : string :=
  let value := toUpperCase value in
  if (3 <? length value)%nat then slice 0 3 value else value.

(** The [min] given to a date input that has none:
    [new Date().toISOString().split('T')[0]]. *)
Definition minDate (h : Host) : string := splitT0 (toISOString (now h)).

(** [/^[A-Z]{3}$/.test(code)] *)
Definition isValidAirportCode (code : string) : bool :=
  match code with
  | String a (String b (String c EmptyString)) =>
      isUpper a && isUpper b && isUpper c
  | _ => false
  end.

Definition msgOrigin : string := "Please enter a valid 3-letter origin airport code".
Definition msgDestination : string :=
  "Please enter a valid 3-letter destination airport code".
Definition msgSame : string := "Origin and destination cannot be the same".
Definition msgNoDate : string := "Please select a travel date".
Definition msgPast : string := "Travel date cannot be in the past".
Definition msgFuture : string :=
  "Travel date cannot be more than 1 year in the future".

(** The values of the fields [origin], [destination] and [date] when the
    form is submitted. *)
Record Fields : Type := {
  originValue : string;
  destinationValue : string;
  dateValue : string
}.

(** The two variables the submit handler assigns. *)
Record Verdict : Type := {
  isValid : bool;
  errorMessage : string
}.

Definition fail (msg : string) : Verdict :=
  {| isValid := false; errorMessage := msg |}.

(** The first block of the handler: the [if / else if / else if] over the
    airport codes. *)
Definition validateAirports (origin destination : string) (v : Verdict) : Verdict :=
  if negb (length origin =? 3)%nat || negb (isValidAirportCode origin) then
    fail msgOrigin
  else if negb (length destination =? 3)%nat || negb (isValidAirportCode destination) then
    fail msgDestination
  else if String.eqb origin destination then
    fail msgSame
  else v.

(** [today]: [new Date()] with [setHours(0, 0, 0, 0)]. *)
Definition today (h : Host) : Z := setHours0 h (now h).

(** [maxDate]: [new Date()] with [setFullYear(getFullYear() + 1)].  Both
    [new Date()] of one submission read the same instant. *)
Definition maxDate (h : Host) : Z :=
  setFullYear h (now h) (getFullYear h (now h) + 1).

(** The second block: a separate [if] on the date, entered whatever the
    first block found; inside its [else], two more separate [if]s. *)
Definition validateDate (h : Host) (date : string) (v : Verdict) : Verdict :=
  if isEmpty date then fail msgNoDate
  else
    let selectedDate := parse h date in
    let v := if ltDate selectedDate (today h) then fail msgPast else v in
    let v := if gtDate selectedDate (maxDate h) then fail msgFuture else v in
    v.

Definition validate (h : Host) (f : Fields) : Verdict :=
  let origin := trim (originValue f) in
  let destination := trim (destinationValue f) in
  let date := dateValue f in
  let v := {| isValid := true; errorMessage := EmptyString |} in
  let v := validateAirports origin destination v in
  let v := validateDate h date v in
  v.

(** What the handler changes on the page: whether the submission was
    cancelled ([e.preventDefault()]) and the text of the alert element of
    class [search-form-error], when there is one. *)
Record Page : Type := {
  defaultPrevented : bool;
  errorAlert : option string
}.

(** [showFormError]: the alert is created when the page has none, and its
    text is replaced in either case. *)
Definition showFormError (message : string) (p : Page) : Page :=
  {| defaultPrevented := defaultPrevented p; errorAlert := Some message |}.

Definition preventDefault (p : Page) : Page :=
  {| defaultPrevented := true; errorAlert := errorAlert p |}.

(** The [submit] listener of [flightSearchForm]. *)
Definition onSubmit (h : Host) (f : Fields) (p : Page) : Page :=
  let v := validate h f in
  if negb (isValid v) then showFormError (errorMessage v) (preventDefault p)
  else p.

(** The message a submission shows on a page without alert, if any. *)
Definition shownMessage (h : Host) (f : Fields) : option string :=
  errorAlert (onSubmit h f {| defaultPrevented := false; errorAlert := None |}).

(** Whether a submission goes through. *)
Definition accepts (h : Host) (f : Fields) : bool :=
  negb (defaultPrevented
          (onSubmit h f {| defaultPrevented := false; errorAlert := None |})).

End Legacy.

Import Legacy.

(** The date block of the handler, read as a message: what its checks
    leave in [errorMessage], whatever the airport block found (this is
    the code, with its comparisons of time values). *)

Module LegacyChecks.

Definition dateChecks (h : Host) (f : Fields) : option string :=
  let date := dateValue f in
  if isEmpty date then Some msgNoDate
  else if ltDate (parse h date) (today h) then Some msgPast
  else if gtDate (parse h date) (maxDate h) then Some msgFuture
  else None.

End LegacyChecks.

Import LegacyChecks.

(** The validation rules as the specification words them: six rules, the
    message being that of the first rule that fails.  The date rules
    compare calendar dates: the date of the field with today, the local
    date of the clock reading, and with today plus one calendar year. *)

Module LegacySpec.

Definition shapeOk (code : string) : bool :=
  (length code =? 3)%nat && isValidAirportCode code.

(** Rules 1 to 3: origin code shape, destination code shape,
    origin-destination inequality. *)
Definition airportRules (f : Fields) : option string :=
  let origin := trim (originValue f) in
  let destination := trim (destinationValue f) in
  if negb (shapeOk origin) then Some msgOrigin
  else if negb (shapeOk destination) then Some msgDestination
  else if String.eqb origin destination then Some msgSame
  else None.

(** The day number of today, the local date of the clock reading, and of
    today plus one calendar year (the same month and date of the next
    year). *)
Definition localToday (h : Host) : Z := Day (LocalTime h (now h)).

Definition nextYear (h : Host) : Z :=
  MakeDay (YearFromDay (localToday h) + 1) (MonthFromDay (localToday h))
          (DateFromDay (localToday h)).

(** Rules 4 to 6: a date must be present; it must not be before today; it
    must not be after today plus one calendar year.  Of a field that
    holds no date YYYY-MM-DD rules 5 and 6 say nothing. *)
Definition dateRules (h : Host) (f : Fields) : option string :=
  let date := dateValue f in
  if isEmpty date then Some msgNoDate
  else
    match parseIsoDate date with
    | Some t =>
        if Day t <? localToday h then Some msgPast
        else if nextYear h <? Day t then Some msgFuture
        else None
    | None => None
    end.

Definition orElse (a b : option string) : option string :=
  match a with
  | Some m => Some m
  | None => b
  end.

(** Rules 1 to 6 in that order. *)
Definition firstFailure (h : Host) (f : Fields) : option string :=
  orElse (airportRules f) (dateRules h f).

(** The date field is empty, or holds a date YYYY-MM-DD other than today,
    today plus one calendar year and the day after: the three dates at
    which the comparisons of the handler depend on the time zone and the
    time of day. *)
Definition awayFromBounds (h : Host) (f : Fields) : bool :=
  isEmpty (dateValue f)
  || match parseIsoDate (dateValue f) with
     | Some t =>
         negb (Day t =? localToday h) && negb (Day t =? nextYear h)
         && negb (Day t =? nextYear h + 1)
     | None => false
     end.

(** The time of day, UTC, at which the local day of the clock reading
    began, plus the time elapsed since: between 0 and a day exactly when
    the UTC date and the local date of the clock reading are the same. *)
Definition sinceLocalMidnightUTC (h : Host) : Z :=
  TimeWithinDay (LocalTime h (now h)) + tzOffset h * msPerMinute.

End LegacySpec.


(* ===================================================================== *)
(** ** JavaScript numbers: the doubles of [Math.random() * 50] *)
(* ===================================================================== *)

(** A non-negative finite double is [mant * 2 ^ expo] with a significand
    below [2 ^ 53]; one number may have several such writings.  The
    product of a double by a small integer is the exact product rounded to
    53 significant bits, to nearest, ties to even (no overflow is possible
    for the values at hand). *)

Module JsNumber.

Record Double : Type := { mant : Z; expo : Z }.

Definition isDouble (x : Double) : bool :=
  (0 <=? mant x) && (mant x <? 2 ^ 53) && (-1074 <=? expo x) && (expo x <=? 971).

(** A double in the range of [Math.random()]: at least 0, below 1. *)
Definition inUnitInterval (x : Double) : bool :=
  isDouble x && ((mant x =? 0) || ((expo x <? 0) && (mant x <? 2 ^ (- expo x)))).

(** [n / 2 ^ s] rounded to the nearest integer, ties to even. *)
Definition roundShift (n s : Z) : Z :=
  if s <=? 0 then n
  else
    let q := n / 2 ^ s in
    let r := n mod 2 ^ s in
    let half := 2 ^ (s - 1) in
    if r <? half then q
    else if half <? r then q + 1
    else if Z.even q then q else q + 1.

(** [x * c] for an integer [c >= 0]. *)
Definition mulInt (x : Double) (c : Z) : Double :=
  let n := mant x * c in
  let s := Z.max 0 (Z.log2 n - 52) in
  {| mant := roundShift n s; expo := expo x + s |}.

(** [Math.floor(x)] *)
Definition floor (x : Double) : Z :=
  if 0 <=? expo x then mant x * 2 ^ expo x else mant x / 2 ^ (- expo x).

End JsNumber.

Import JsNumber.

(* ===================================================================== *)
(** ** The data types of flightService.ts *)
(* ===================================================================== *)

Module FlightData.

Inductive InsightType : Type := good | warning | info.

Record PriceTrendPoint : Type := {
  date : string;
  price : Z;
  isLowestPrice : bool
}.

Record PriceInsight : Type := {
  icon : string;
  title : string;
  description : string;
  type : InsightType
}.

Record PriceData : Type := {
  priceTrends : list PriceTrendPoint;
  insights : list PriceInsight
}.

End FlightData.

Import FlightData.

(* ===================================================================== *)
(** ** Effects: notifications, console, component state *)
(* ===================================================================== *)

(** What the asynchronous code acts on, and a state-and-exception monad
    over it.  An [await] is sequencing; a rejected promise is a thrown
    value. *)

Module Effects.

(** The notifications of [sonner]'s [toast]. *)
Inductive Toast : Type :=
| ToastError (msg : string)
| ToastSuccess (msg : string).

Inductive ConsoleEntry : Type :=
| ConsoleLog (msg : string)
| ConsoleError (msg : string).

(** A thrown value. *)
Definition Error : Type := string.

Record World : Type := {
  toasts : list Toast;                  (* notifications shown, oldest first *)
  console : list ConsoleEntry;          (* console output, oldest first *)
  isSearching : bool;                   (* state of the FlightSearch component *)
  flightPriceData : option PriceData    (* query cache, key ['flightPriceData'] *)
}.

Definition M (A : Type) : Type := World -> (Error + A) * World.

Definition ret {A} (a : A) : M A := fun w => (inr a, w).

Definition bind {A B} (m : M A) (k : A -> M B) : M B :=
  fun w =>
    match m w with
    | (inr a, w') => k a w'
    | (inl e, w') => (inl e, w')
    end.

Definition throw {A} (e : Error) : M A := fun w => (inl e, w).

(** [try { body } catch (error) { handler }] *)
Definition tryCatch {A} (body : M A) (handler : Error -> M A) : M A :=
  fun w =>
    match body w with
    | (inr a, w') => (inr a, w')
    | (inl e, w') => handler e w'
    end.

(** [try { body } finally { final }] *)
Definition tryFinally {A} (body : M A) (final : M unit) : M A :=
  fun w =>
    match body w with
    | (r, w') =>
        match final w' with
        | (inr _, w'') => (r, w'')
        | (inl e, w'') => (inl e, w'')
        end
    end.

Definition modify (f : World -> World) : M unit := fun w => (inr tt, f w).

Definition toast_error (msg : string) : M unit :=
  modify (fun w => {| toasts := (toasts w ++ [ToastError msg])%list;
                      console := console w;
                      isSearching := isSearching w;
                      flightPriceData := flightPriceData w |}).

Definition toast_success (msg : string) : M unit :=
  modify (fun w => {| toasts := (toasts w ++ [ToastSuccess msg])%list;
                      console := console w;
                      isSearching := isSearching w;
                      flightPriceData := flightPriceData w |}).

Definition console_log (msg : string) : M unit :=
  modify (fun w => {| toasts := toasts w;
                      console := (console w ++ [ConsoleLog msg])%list;
                      isSearching := isSearching w;
                      flightPriceData := flightPriceData w |}).

Definition console_error (msg : string) : M unit :=
  modify (fun w => {| toasts := toasts w;
                      console := (console w ++ [ConsoleError msg])%list;
                      isSearching := isSearching w;
                      flightPriceData := flightPriceData w |}).

Definition setIsSearching (b : bool) : M unit :=
  modify (fun w => {| toasts := toasts w;
                      console := console w;
                      isSearching := b;
                      flightPriceData := flightPriceData w |}).

(** [queryClient.setQueryData(['flightPriceData'], data)] *)
Definition setQueryData (d : PriceData) : M unit :=
  modify (fun w => {| toasts := toasts w;
                      console := console w;
                      isSearching := isSearching w;
                      flightPriceData := Some d |}).

End Effects.

Import Effects.

Notation "x <- m ;; k" := (bind m (fun x => k))
  (at level 61, m at next level, right associativity).
Notation "m ;; k" := (bind m (fun _ => k))
  (at level 61, right associativity).

(* ===================================================================== *)
(** ** flightService.ts *)
(* ===================================================================== *)

Module FlightService.

Record FlightSearchParams : Type := {
  origin : string;
  destination : string;
  departDate : string;
  returnDate : string;
  passengers : option Z      (* a number; [None] is NaN *)
}.

(** [Math.floor(Math.random() * 50)] for a draw [r] of [Math.random()]. *)
Definition randomOffset (r : Double) : Z := floor (mulInt r 50).

(** The body of the function given to [Array.from]: the point of index
    [i], with [r] the value [Math.random()] returns in that call. *)
Definition mockPoint (h : Host) (r : Double) (i : Z) : PriceTrendPoint :=
  let today := now h in
  let date := setDate h today (getDate h today + i) in
  let basePrice := 280 in
  let basePrice := if i mod 3 =? 0 then basePrice - 20 else basePrice in
  let basePrice := if i mod 7 =? 0 then basePrice - 30 else basePrice in
  let price := basePrice + randomOffset r in
  {| date := splitT0 (toISOString date);
     price := price;
     isLowestPrice := i =? 3 |}.

(** [Array.from({ length: 14 }, (_, i) => ...)]; [random i] is the draw of
    the call for index [i] (the calls are made in index order, one each). *)
Definition getMockPriceTrends (h : Host) (random : nat -> Double) : list PriceTrendPoint :=
  map (fun i => mockPoint h (random i) (Z.of_nat i)) (seq 0 14).

Definition getMockInsights : list PriceInsight :=
  [ {| icon := "ðŸ’¸";
       title := "Lowest Price";
       description := "Book on Saturday for the best deal at $260!";
       type := good |};
    {| icon := "âš ï¸";
       title := "Price Trend";
       description := "Prices are expected to increase by 15% next week.";
       type := warning |};
    {| icon := "ðŸ”®";
       title := "Future Prediction";
       description := "Wait 3 days for a potential price drop.";
       type := info |} ].

Record Response : Type := {
  success : bool;
  message : string;
  data : PriceData
}.

(** The awaited call of the source,
    [await new Promise(resolve => setTimeout(resolve, 1000))]: it resolves
    and changes nothing. *)
Definition simulateApiCall : M unit := ret tt.

Definition failureMessage : string := "Failed to search flights. Please try again.".

(** [searchFlights] with the awaited call as a parameter: the source says
    of it that it is to be replaced with actual API calls, and its [catch]
    is there for a call that can fail. *)
Definition searchFlightsWith (apiCall : M unit) (h : Host) (random : nat -> Double)
    (params : FlightSearchParams) : M Response :=
  tryCatch
    (console_log "Searching flights with params:" ;;
     apiCall ;;
     ret {| success := true;
            message := "Flight search successful";
            data := {| priceTrends := getMockPriceTrends h random;
                       insights := getMockInsights |} |})
    (fun error =>
       console_error "Error searching flights:" ;;
       toast_error failureMessage ;;
       throw error).

Definition searchFlights : Host -> (nat -> Double) -> FlightSearchParams -> M Response :=
  searchFlightsWith simulateApiCall.

End FlightService.

Import FlightService.

(* ===================================================================== *)
(** ** FlightSearch.tsx *)
(* ===================================================================== *)

Module FlightSearch.

(** The longest prefix of decimal digits, as a number; [acc] is the value
    read so far, if a digit was read. *)
Fixpoint parseIntDigits (acc : option Z) (s : string) : option Z :=
  match s with
  | EmptyString => acc
  | String c s' =>
      match digitVal c with
      | Some v =>
          parseIntDigits
            (Some (10 * (match acc with Some a => a | None => 0 end) + v)) s'
      | None => acc
      end
  end.

(** [parseInt(s, 10)]; [None] is NaN. *)
Definition parseInt (s : string) : option Z :=
  match trimStart s with
  | String "-" s' => option_map Z.opp (parseIntDigits None s')
  | String "+" s' => parseIntDigits None s'
  | s' => parseIntDigits None s'
  end.

(** The [useState] values the handler reads. *)
Record Form : Type := {
  origin : string;
  destination : string;
  departDate : string;
  returnDate : string;
  passengers : string
}.

(** [!origin || !destination || !departDate || !returnDate] *)
Definition missingFields (f : Form) : bool :=
  isEmpty (origin f) || isEmpty (destination f)
  || isEmpty (departDate f) || isEmpty (returnDate f).

(** [handleSearch], over the awaited call of the service.  Its
    [e.preventDefault()] acts on nothing that is modelled. *)
Definition handleSearchWith (apiCall : M unit) (h : Host) (random : nat -> Double)
    (f : Form) : M unit :=
  if missingFields f
  then toast_error "Please fill in all required fields"
  else
    tryFinally
      (tryCatch
         (setIsSearching true ;;
          let searchParams :=
            {| FlightService.origin := origin f;
               FlightService.destination := destination f;
               FlightService.departDate := departDate f;
               FlightService.returnDate := returnDate f;
               FlightService.passengers := parseInt (passengers f) |} in
          result <- searchFlightsWith apiCall h random searchParams ;;
          setQueryData (data result) ;;
          toast_success "Flight prices analyzed successfully!")
         (fun error => console_error "Error during flight search:"))
      (setIsSearching false).

Definition handleSearch : Host -> (nat -> Double) -> Form -> M unit :=
  handleSearchWith simulateApiCall.

(** The page before any search. *)
Definition initialWorld : World :=
  {| toasts := []; console := []; isSearching := false; flightPriceData := None |}.

End FlightSearch.

(* ===================================================================== *)
(** ** PriceAnalysis.tsx and PriceChart.tsx *)
(* ===================================================================== *)

Module PriceAnalysis.

Definition defaultInsights : list PriceInsight :=
  [ {| icon := "💸";
       title := "Lowest Price";
       description := "Book on Saturday for the best deal at $260!";
       type := good |};
    {| icon := "⚠️";
       title := "Price Trend";
       description := "Prices are expected to increase by 15% next week.";
       type := warning |};
    {| icon := "🔮";
       title := "Future Prediction";
       description := "Wait 3 days for a potential price drop.";
       type := info |} ].

(** [priceData?.insights || [ ...defaults ]]: [priceData] is what the query
    cache holds, [undefined] before any search.  An array is truthy, the
    empty one too, so the defaults are taken only when there is no data. *)
Definition insights (priceData : option PriceData) : list PriceInsight :=
  match priceData with
  | Some d => FlightData.insights d
  | None => defaultInsights
  end.

(** [priceData?.priceTrends || []] *)
Definition priceTrends (priceData : option PriceData) : list PriceTrendPoint :=
  match priceData with
  | Some d => FlightData.priceTrends d
  | None => []
  end.

Definition badgeLabel (t : InsightType) : string :=
  match t with
  | good => "Good Deal"
  | warning => "Act Soon"
  | info => "AI Prediction"
  end.

Definition badgeClass (t : InsightType) : string :=
  match t with
  | good => "bg-green-100 text-green-800 hover:bg-green-200"
  | warning => "bg-amber-100 text-amber-800 hover:bg-amber-200"
  | info => "bg-blue-100 text-blue-800 hover:bg-blue-200"
  end.

(** One rendered insight: icon, title, badge, description. *)
Record Row : Type := {
  rowIcon : string;
  rowTitle : string;
  rowBadge : string;
  rowBadgeClass : string;
  rowDescription : string
}.

Definition renderInsight (i : PriceInsight) : Row :=
  {| rowIcon := icon i;
     rowTitle := title i;
     rowBadge := badgeLabel (type i);
     rowBadgeClass := badgeClass (type i);
     rowDescription := description i |}.

(** The rows of the panel: [insights.map(...)]. *)
Definition render (priceData : option PriceData) : list Row :=
  map renderInsight (insights priceData).

End PriceAnalysis.

Module PriceChart.

Definition sampleData : list PriceTrendPoint :=
  [ {| date := "2025-05-01"; price := 340; isLowestPrice := false |};
    {| date := "2025-05-02"; price := 320; isLowestPrice := false |};
    {| date := "2025-05-03"; price := 300; isLowestPrice := false |};
    {| date := "2025-05-04"; price := 260; isLowestPrice := true |};
    {| date := "2025-05-05"; price := 280; isLowestPrice := false |};
    {| date := "2025-05-06"; price := 310; isLowestPrice := false |};
    {| date := "2025-05-07"; price := 290; isLowestPrice := false |} ].

(** [priceTrends.length > 0 ? priceTrends : [ ...sample ]] *)
Definition chartData (priceTrends : list PriceTrendPoint) : list PriceTrendPoint :=
  if (0 <? List.length priceTrends)%nat then priceTrends else sampleData.

(** [chartData.find(point => point.isLowestPrice)] *)
Definition lowestPricePoint (priceTrends : list PriceTrendPoint) : option PriceTrendPoint :=
  find isLowestPrice (chartData priceTrends).

End PriceChart.

(* ===================================================================== *)
(** ** Further string and number primitives *)
(* ===================================================================== *)

Module JsText.

Definition lowerChar (c : ascii) : ascii :=
  if isUpper c then ascii_of_nat (nat_of_ascii c + 32) else c.

(** [s.toLowerCase()] *)
Fixpoint toLowerCase (s : string) : string :=
  match s with
  | EmptyString => EmptyString
  | String c s' => String (lowerChar c) (toLowerCase s')
  end.

Definition isLetter (c : ascii) : bool := isUpper c || isLower c.

(** A code unit of the ASCII range, where the case mappings of the
    language are those of [upperChar] and [lowerChar]. *)
Definition isAscii (c : ascii) : bool := code c <? 128.

(** Every character of [s] satisfies [p]. *)
Fixpoint allChars (p : ascii -> bool) (s : string) : bool :=
  match s with
  | EmptyString => true
  | String c s' => p c && allChars p s'
  end.

(** The decimal digits of [n >= 0], put before [acc]; [fuel] bounds their
    number. *)
Fixpoint toStringAux (fuel : nat) (n : Z) (acc : string) : string :=
  match fuel with
  | O => acc
  | S k =>
      let acc := String (digitChar n) acc in
      if n <? 10 then acc else toStringAux k (n / 10) acc
  end.

(** [n.toString()], [String(n)] and [`${n}`] for an integer [n] that a
    double holds exactly (the decimal form, with no exponent). *)
Definition numberToString (n : Z) : string :=
  if n <? 0 then String "-" (toStringAux (S (Z.to_nat (Z.log2 (- n)))) (- n) EmptyString)
  else toStringAux (S (Z.to_nat (Z.log2 n))) n EmptyString.

End JsText.

Import JsText.

(* ===================================================================== *)
(** ** Legacy page script: date inputs and repeated submissions *)
(* ===================================================================== *)

Module LegacyPage.

(** The loop over the date inputs: [if (!input.min) { input.min = today; }],
    as a function from the [min] of an input to its new [min]. *)
Definition initDateInput (h : Host) (min : string) : string :=
  if isEmpty min then minDate h else min.

(** One more submission on a page whose alert, if any, reads [alert]: every
    submit event is a new event, the alert element stays on the page. *)
Definition submit (h : Host) (alert : option string) (f : Fields) : Page :=
  onSubmit h f {| defaultPrevented := false; errorAlert := alert |}.

(** The alert after the submissions [fs], made one after the other. *)
Definition alertAfter (h : Host) (fs : list Fields) (alert : option string) : option string :=
  fold_left (fun a f => errorAlert (submit h a f)) fs alert.

(** The fields with their airport codes trimmed. *)
Definition trimmed (f : Fields) : Fields :=
  {| originValue := trim (originValue f);
     destinationValue := trim (destinationValue f);
     dateValue := dateValue f |}.

End LegacyPage.

Import LegacyPage.

(* ===================================================================== *)
(** ** Dates as the charts print them *)
(* ===================================================================== *)

Module JsIntl.

Definition monthShort (m : Z) : string :=
  if m <=? 0 then "Jan"
  else if m =? 1 then "Feb"
  else if m =? 2 then "Mar"
  else if m =? 3 then "Apr"
  else if m =? 4 then "May"
  else if m =? 5 then "Jun"
  else if m =? 6 then "Jul"
  else if m =? 7 then "Aug"
  else if m =? 8 then "Sep"
  else if m =? 9 then "Oct"
  else if m =? 10 then "Nov"
  else "Dec".

(** [d.toLocaleDateString('en-US', { month: 'short', day: 'numeric' })] for
    the date [d] of time value [t] ([None]: an Invalid Date): short month
    and day of the month of the local date. *)
Definition toLocaleDateString (h : Host) (t : option Z) : string :=
  match t with
  | None => "Invalid Date"
  | Some t =>
      let d := Day (LocalTime h t) in
      monthShort (MonthFromDay d) ++ " " ++ numberToString (DateFromDay d)
  end.

End JsIntl.

Import JsIntl.

(* ===================================================================== *)
(** ** chart.js (legacy price-history chart) *)
(* ===================================================================== *)

Module LegacyChart.

(** [getTrendColor]: a [switch] on [trend.toLowerCase()]. *)
Definition getTrendColor (trend : string) : string :=
  let t := toLowerCase trend in
  if String.eqb t "rising" then "#FF6B6B"
  else if String.eqb t "falling" then "#1DD1A1"
  else if String.eqb t "stable" then "#54A0FF"
  else "#FFDE00".

(** [dates.map(date => new Date(date).toLocaleDateString(...))], the dates
    being strings. *)
Definition formattedDates (h : Host) (dates : list string) : list string :=
  map (fun date => toLocaleDateString h (parse h date)) dates.

(** The annotation [trendLine] that [addTrendMarkersToChart] sets; the
    value is [undefined] ([None]) when the data set is empty. *)
Record TrendLine (Num : Type) : Type := {
  lineValue : option Num;
  borderColor : string;
  labelContent : string;
  labelBackground : string
}.

(** What is modelled of a chart: the labels and the data of its one data
    set, its annotation, and how many times [update()] was called.  The
    prices are numbers of any kind; the two y-axis options computed from
    them in floating point are left out. *)
Record Chart (Num : Type) : Type := {
  labels : list string;
  data : list Num;
  annotation : option (TrendLine Num);
  updates : nat
}.

Arguments lineValue {Num}.
Arguments borderColor {Num}.
Arguments labelContent {Num}.
Arguments labelBackground {Num}.
Arguments labels {Num}.
Arguments data {Num}.
Arguments annotation {Num}.
Arguments updates {Num}.

(** [createPriceHistoryChart(dates, prices)]; [canvas] tells whether the
    page has the element [priceHistoryChart]; without it nothing is
    returned. *)
Definition createPriceHistoryChart {Num : Type} (h : Host) (canvas : bool)
    (dates : list string) (prices : list Num) : option (Chart Num) :=
  if negb canvas then None
  else Some {| labels := formattedDates h dates;
               data := prices;
               annotation := None;
               updates := 0 |}.

(** [data[data.length - 1]] *)
Definition lastOf {A : Type} (l : list A) : option A :=
  nth_error l (List.length l - 1).

(** [addTrendMarkersToChart(chart, trend)]: the chart afterwards and the
    warnings written to the console.  [chart] is [None] for a missing
    chart, [trend] is empty for a missing trend; [plugin] tells whether
    [Chart.annotationPlugin] is there. *)
Definition addTrendMarkersToChart {Num : Type} (plugin : bool)
    (chart : option (Chart Num)) (trend : string)
    : option (Chart Num) * list string :=
  match chart with
  | None => (None, [])
  | Some c =>
      if isEmpty trend then (Some c, [])
      else if negb plugin then
        (Some c, ["Chart.js Annotation plugin not available"])
      else
        let trendColor := getTrendColor trend in
        (Some {| labels := labels c;
                 data := data c;
                 annotation :=
                   Some {| lineValue := lastOf (data c);
                           borderColor := trendColor;
                           labelContent := toUpperCase trend ++ " TREND";
                           labelBackground := trendColor |};
                 updates := S (updates c) |},
         [])
  end.

(** One call of [addTrendMarkersToChart] after the other on one chart,
    each with the state of the plugin and the trend given. *)
Definition addTrendMarkersAll {Num : Type} (calls : list (bool * string))
    (c : Chart Num) : Chart Num :=
  fold_left
    (fun c call =>
       match fst (addTrendMarkersToChart (fst call) (Some c) (snd call)) with
       | Some c' => c'
       | None => c
       end)
    calls c.

(** The calls that change the chart: plugin there, trend not empty. *)
Definition effective (call : bool * string) : bool :=
  fst call && negb (isEmpty (snd call)).

End LegacyChart.

(* ===================================================================== *)
(** ** PriceChart.tsx: axis and tooltip formatters *)
(* ===================================================================== *)

Module PriceChartFormat.

(** [formatXAxis]: [new Date(dateStr).getDate().toString()]; the date of
    an Invalid Date is NaN. *)
Definition formatXAxis (h : Host) (dateStr : string) : string :=
  match parse h dateStr with
  | Some t => numberToString (getDate h t)
  | None => "NaN"
  end.

(** [formatYAxis]: the template [$${price}]. *)
Definition formatYAxis (price : Z) : string := "$" ++ numberToString price.

(** [labelFormatter] of the tooltip. *)
Definition labelFormatter (h : Host) (label : string) : string :=
  toLocaleDateString h (parse h label).

(** The ticks of the x axis: one per point of the data shown. *)
Definition xTicks (h : Host) (priceTrends : list PriceTrendPoint) : list string :=
  map (fun p => formatXAxis h (date p)) (PriceChart.chartData priceTrends).

End PriceChartFormat.

(* ===================================================================== *)
(** ** FlightSearch.tsx: the passengers select and the search parameters *)
(* ===================================================================== *)

Module FlightSearchForm.

(** The values of the select items: [[1, 2, 3, 4, 5].map(num =>
    num.toString())]. *)
Definition passengerOptions : list string :=
  map numberToString [1; 2; 3; 4; 5].

(** The text of an item: [{num} {num === 1 ? 'Passenger' : 'Passengers'}]. *)
Definition passengerLabel (num : Z) : string :=
  numberToString num ++ " " ++ (if num =? 1 then "Passenger" else "Passengers").

(** The [searchParams] that [handleSearch] builds from the form. *)
Definition searchParamsOf (f : FlightSearch.Form) : FlightSearchParams :=
  {| FlightService.origin := FlightSearch.origin f;
     FlightService.destination := FlightSearch.destination f;
     FlightService.departDate := FlightSearch.departDate f;
     FlightService.returnDate := FlightSearch.returnDate f;
     FlightService.passengers := FlightSearch.parseInt (FlightSearch.passengers f) |}.

(** The form as it is first rendered: every [useState] at its initial
    value. *)
Definition initialForm : FlightSearch.Form :=
  {| FlightSearch.origin := EmptyString;
     FlightSearch.destination := EmptyString;
     FlightSearch.departDate := EmptyString;
     FlightSearch.returnDate := EmptyString;
     FlightSearch.passengers := "1" |}.

End FlightSearchForm.

(** Hosts and submissions used as examples. *)

Module Samples.

Definition noFallback : string -> option Z := fun _ => None.

(** 1 May 2025, 12:00 UTC, on a host whose local time is UTC. *)
Definition utcNoon : Host :=
  {| now := MakeDate (MakeDay 2025 4 1) (12 * 3600000);
     tzOffset := 0;
     parseOther := noFallback |}.

(** 1 May 2025, 12:00 in New York (UTC-4): 16:00 UTC. *)
Definition newYorkNoon : Host :=
  {| now := MakeDate (MakeDay 2025 4 1) (16 * 3600000);
     tzOffset := 240;
     parseOther := noFallback |}.

(** 1 May 2025, 21:00 in New York (UTC-4): 2 May 2025, 01:00 UTC. *)
Definition newYorkEvening : Host :=
  {| now := MakeDate (MakeDay 2025 4 2) (1 * 3600000);
     tzOffset := 240;
     parseOther := noFallback |}.

(** 1 May 2025, 08:00 in Tokyo (UTC+9): 30 April 2025, 23:00 UTC. *)
Definition tokyoMorning : Host :=
  {| now := MakeDate (MakeDay 2025 3 30) (23 * 3600000);
     tzOffset := -540;
     parseOther := noFallback |}.

(** 29 February 2024, 21:00 in New York (UTC-5): 1 March 2024, 02:00 UTC. *)
Definition newYorkLeapEvening : Host :=
  {| now := MakeDate (MakeDay 2024 2 1) (2 * 3600000);
     tzOffset := 300;
     parseOther := noFallback |}.

Definition fields (origin destination date : string) : Fields :=
  {| originValue := origin; destinationValue := destination; dateValue := date |}.

(** A draw of 0, of 1/2, and the largest double below 1. *)
Definition zero : Double := {| mant := 0; expo := 0 |}.
Definition half : Double := {| mant := 1; expo := -1 |}.
Definition belowOne : Double := {| mant := 2 ^ 53 - 1; expo := -53 |}.

(** Price data whose insights are the empty sequence. *)
Definition noInsights : PriceData :=
  {| FlightData.priceTrends := []; FlightData.insights := [] |}.

End Samples.

(* ===================================================================== *)
(** * Properties *)
(* ===================================================================== *)

(* ===================================================================== *)
(** ** The airport-code normaliser *)
(* ===================================================================== *)

Section Normaliser.

Lemma toUpperCase_length (s : string) :
  length (toUpperCase s) = length s.
Proof. induction s as [|c s IH]; simpl; congruence. Qed.

Lemma slice_0_short (n : nat) (s : string) :
  (length s <= n)%nat -> slice 0 n s = s.
Proof.
  unfold slice. rewrite Nat.sub_0_r. revert n.
  induction s as [|c s IH]; intros [|n] H; simpl in *; try reflexivity; try lia.
  f_equal. apply IH. lia.
Qed.

Lemma slice_0_length (n : nat) (s : string) :
  (length (slice 0 n s) <= n)%nat.
Proof.
  unfold slice. rewrite Nat.sub_0_r. revert n.
  induction s as [|c s IH]; intros [|n]; simpl; try lia.
  specialize (IH n). lia.
Qed.

Lemma isUpper_not_lower (c : ascii) : isUpper c = true -> isLower c = false.
Proof.
  unfold isUpper, isLower. intros H.
  apply andb_true_iff in H as [_ H]. apply Z.leb_le in H.
  apply andb_false_iff. left. apply Z.leb_gt. lia.
Qed.

Lemma upperChar_upper (c : ascii) : isUpper c = true -> upperChar c = c.
Proof. intros H. unfold upperChar. now rewrite (isUpper_not_lower c H). Qed.

Lemma upperChar_not_lower (c : ascii) : isLower (upperChar c) = false.
Proof.
  unfold upperChar. destruct (isLower c) eqn:E; [|exact E].
  unfold isLower, code in *.
  apply andb_true_iff in E as [E1 E2]. apply Z.leb_le in E1, E2.
  rewrite nat_ascii_embedding by lia.
  apply andb_false_iff. left. apply Z.leb_gt. lia.
Qed.

Lemma toUpperCase_idem (s : string) :
  toUpperCase (toUpperCase s) = toUpperCase s.
Proof.
  induction s as [|c s IH]; simpl; [reflexivity|].
  rewrite IH. f_equal.
  unfold upperChar at 1. now rewrite upperChar_not_lower.
Qed.

Lemma toUpperCase_slice (n : nat) (s : string) :
  toUpperCase (slice 0 n s) = slice 0 n (toUpperCase s).
Proof.
  unfold slice. rewrite Nat.sub_0_r. revert n.
  induction s as [|c s IH]; intros [|n]; simpl; try reflexivity.
  now rewrite IH.
Qed.

Lemma airportInputHandler_slice (s : string) :
  airportInputHandler s = slice 0 3 (toUpperCase s).
Proof.
  unfold airportInputHandler.
  destruct (Nat.ltb_spec 3 (length (toUpperCase s))) as [H|H];
    [reflexivity | now rewrite slice_0_short].
Qed.

Lemma airportInputHandler_valid (c : string) :
  isValidAirportCode c = true -> airportInputHandler c = c.
Proof.
  destruct c as [|a [|b [|c [|d r]]]]; simpl; try discriminate.
  intros H. apply andb_true_iff in H as [H Hc].
  apply andb_true_iff in H as [Ha Hb].
  unfold airportInputHandler. simpl.
  now rewrite !upperChar_upper.
Qed.

(** C8.  The airport-code normaliser is the upper-cased input cut to its
    first three characters, for every input; it leaves every code of the
    shape [A-Z]{3} unchanged, and more generally applying it twice is the
    same as applying it once; "jfk" becomes "JFK" and "laxx" becomes
    "LAX". *)
Theorem airportInputHandler_normalises :
  (forall s, airportInputHandler s = slice 0 3 (toUpperCase s)) /\
  (forall c, isValidAirportCode c = true -> airportInputHandler c = c) /\
  (forall s, airportInputHandler (airportInputHandler s) = airportInputHandler s) /\
  airportInputHandler "jfk" = "JFK" /\
  airportInputHandler "laxx" = "LAX".
Proof.
  split; [exact airportInputHandler_slice|].
  split; [exact airportInputHandler_valid|].
  split; [|split; reflexivity].
  intros s. rewrite !airportInputHandler_slice.
  rewrite toUpperCase_slice, toUpperCase_idem.
  apply slice_0_short, slice_0_length.
Qed.

Lemma airportInputHandler_normalises_witness :
  isValidAirportCode "JFK" = true /\ airportInputHandler "JFK" = "JFK".
Proof.
  split; [reflexivity|].
  apply (proj1 (proj2 airportInputHandler_normalises) "JFK"). reflexivity.
Defined.

End Normaliser.

(* ===================================================================== *)
(** ** The calendar *)
(* ===================================================================== *)

Ltac split_months :=
  repeat match goal with
         | |- context [Z.ltb ?a ?b] => destruct (Z.ltb_spec a b)
         end.

Ltac eval_tables :=
  repeat match goal with
         | |- context [daysBeforeMonth ?l ?m] =>
             let v := eval vm_compute in (daysBeforeMonth l m) in
             change (daysBeforeMonth l m) with v
         | |- context [daysInMonth ?l ?m] =>
             let v := eval vm_compute in (daysInMonth l m) in
             change (daysInMonth l m) with v
         end.

Section Calendar.

Lemma quarter_step (y : Z) :
  (y - 1968) / 4 - (y - 1969) / 4 = if y mod 4 =? 0 then 1 else 0.
Proof. destruct (Z.eqb_spec (y mod 4) 0); Z.div_mod_to_equations; lia. Qed.

Lemma century_step (y : Z) :
  (y - 1900) / 100 - (y - 1901) / 100 = if y mod 100 =? 0 then 1 else 0.
Proof. destruct (Z.eqb_spec (y mod 100) 0); Z.div_mod_to_equations; lia. Qed.

Lemma quadricentennial_step (y : Z) :
  (y - 1600) / 400 - (y - 1601) / 400 = if y mod 400 =? 0 then 1 else 0.
Proof. destruct (Z.eqb_spec (y mod 400) 0); Z.div_mod_to_equations; lia. Qed.

Lemma DaysInYear_range (y : Z) : 365 <= DaysInYear y <= 366.
Proof. unfold DaysInYear. destruct (isLeapYear y); lia. Qed.

(** A year is as long as the leap-year rule says. *)
Lemma DayFromYear_succ (y : Z) :
  DayFromYear (y + 1) = DayFromYear y + DaysInYear y.
Proof.
  unfold DayFromYear, DaysInYear, isLeapYear.
  replace (y + 1 - 1969) with (y - 1968) by lia.
  replace (y + 1 - 1901) with (y - 1900) by lia.
  replace (y + 1 - 1601) with (y - 1600) by lia.
  pose proof (quarter_step y). pose proof (century_step y).
  pose proof (quadricentennial_step y).
  assert (y mod 400 = 0 -> y mod 100 = 0) by (intros; Z.div_mod_to_equations; lia).
  assert (y mod 100 = 0 -> y mod 4 = 0) by (intros; Z.div_mod_to_equations; lia).
  destruct (Z.eqb_spec (y mod 4) 0); destruct (Z.eqb_spec (y mod 100) 0);
    destruct (Z.eqb_spec (y mod 400) 0); cbn [andb orb negb]; lia.
Qed.

(** [YearFromDay d] is the year that contains day [d]. *)
Lemma YearFromDay_spec (d : Z) :
  DayFromYear (YearFromDay d) <= d < DayFromYear (YearFromDay d + 1).
Proof.
  unfold YearFromDay.
  destruct (Z.ltb_spec d (DayFromYear (1970 + 400 * d / 146097))).
  - replace (1970 + 400 * d / 146097 - 1 + 1) with (1970 + 400 * d / 146097) by lia.
    split; [|lia]. unfold DayFromYear in *. Z.div_mod_to_equations; lia.
  - destruct (Z.leb_spec (DayFromYear (1970 + 400 * d / 146097 + 1)) d).
    + split; [lia|]. unfold DayFromYear in *. Z.div_mod_to_equations; lia.
    + lia.
Qed.

Lemma DayWithinYear_range (d : Z) :
  0 <= DayWithinYear d < DaysInYear (YearFromDay d).
Proof.
  unfold DayWithinYear. pose proof (YearFromDay_spec d) as H.
  rewrite DayFromYear_succ in H. lia.
Qed.

Lemma DayFromYear_mono (y y' : Z) : y <= y' -> DayFromYear y <= DayFromYear y'.
Proof. unfold DayFromYear. intros. Z.div_mod_to_equations; lia. Qed.

(** The year that contains a day is unique. *)
Lemma YearFromDay_unique (d y : Z) :
  DayFromYear y <= d < DayFromYear (y + 1) -> YearFromDay d = y.
Proof.
  intros H. pose proof (YearFromDay_spec d) as S.
  destruct (Z.lt_trichotomy (YearFromDay d) y) as [L|[E|G]]; [|exact E|].
  - pose proof (DayFromYear_mono (YearFromDay d + 1) y). lia.
  - pose proof (DayFromYear_mono (y + 1) (YearFromDay d)). lia.
Qed.

Lemma YearFromDay_mono (d d' : Z) : d <= d' -> YearFromDay d <= YearFromDay d'.
Proof.
  intros Hd. pose proof (YearFromDay_spec d) as S. pose proof (YearFromDay_spec d') as S'.
  destruct (Z.le_gt_cases (YearFromDay d) (YearFromDay d')) as [L|G]; [exact L|].
  pose proof (DayFromYear_mono (YearFromDay d' + 1) (YearFromDay d)). lia.
Qed.

(** The month table and its inverse agree. *)
Lemma month_table (leap : bool) (dwy : Z) :
  0 <= dwy < (if leap then 366 else 365) ->
  let m := monthOfDayWithinYear leap dwy in
  0 <= m <= 11 /\
  1 <= dwy - daysBeforeMonth leap m + 1 <= daysInMonth leap m.
Proof.
  intros H m. subst m. unfold monthOfDayWithinYear.
  destruct leap; split_months; eval_tables; lia.
Qed.

Lemma MonthFromDay_range (d : Z) : 0 <= MonthFromDay d <= 11.
Proof.
  unfold MonthFromDay. apply month_table.
  pose proof (DayWithinYear_range d) as H. unfold DaysInYear in H. exact H.
Qed.

Lemma DateFromDay_range (d : Z) :
  1 <= DateFromDay d <= DaysInMonth (YearFromDay d) (MonthFromDay d).
Proof.
  unfold DateFromDay, DaysInMonth, MonthFromDay. apply month_table.
  pose proof (DayWithinYear_range d) as H. unfold DaysInYear in H. exact H.
Qed.

(** Year, month and date of a day give the day back. *)
Lemma MakeDay_civil (d : Z) :
  MakeDay (YearFromDay d) (MonthFromDay d) (DateFromDay d) = d.
Proof.
  pose proof (MonthFromDay_range d) as Hm.
  unfold MakeDay.
  rewrite (Z.div_small (MonthFromDay d) 12), (Z.mod_small (MonthFromDay d) 12) by lia.
  rewrite Z.add_0_r. unfold DateFromDay, DayWithinYear.
  fold (MonthFromDay d). lia.
Qed.

Lemma MakeDay_date_add (y m dt i : Z) :
  MakeDay y m (dt + i) = MakeDay y m dt + i.
Proof. unfold MakeDay. lia. Qed.

(** The same month and date a year later are 365 or 366 days away; the
    29th of February of a leap year lands on the 1st of March. *)
Lemma MakeDay_next_year (y m dt : Z) :
  0 <= m <= 11 ->
  MakeDay y m dt + 365 <= MakeDay (y + 1) m dt <= MakeDay y m dt + 366.
Proof.
  intros Hm. unfold MakeDay.
  rewrite (Z.div_small m 12), (Z.mod_small m 12) by lia.
  rewrite !Z.add_0_r, DayFromYear_succ.
  assert (isLeapYear y = true -> isLeapYear (y + 1) = false) as Hleap.
  { unfold isLeapYear. intros H. apply andb_true_iff in H as [H _].
    apply Z.eqb_eq in H. apply andb_false_iff. left. apply Z.eqb_neq.
    Z.div_mod_to_equations; lia. }
  unfold DaysInYear.
  destruct (isLeapYear y) eqn:Ey.
  - rewrite (Hleap eq_refl).
    assert (m = 0 \/ m = 1 \/ m = 2 \/ m = 3 \/ m = 4 \/ m = 5 \/ m = 6 \/
            m = 7 \/ m = 8 \/ m = 9 \/ m = 10 \/ m = 11) as Hc by lia.
    repeat destruct Hc as [->|Hc]; try subst m; eval_tables; lia.
  - assert (m = 0 \/ m = 1 \/ m = 2 \/ m = 3 \/ m = 4 \/ m = 5 \/ m = 6 \/
            m = 7 \/ m = 8 \/ m = 9 \/ m = 10 \/ m = 11) as Hc by lia.
    destruct (isLeapYear (y + 1));
      repeat destruct Hc as [->|Hc]; try subst m; eval_tables; lia.
Qed.

End Calendar.

(* ===================================================================== *)
(** ** Time values and local time *)
(* ===================================================================== *)

Section Time.

Variable h : Host.

Lemma msPerDay_pos : 0 < msPerDay.
Proof. reflexivity. Qed.

Lemma MakeDate_Day (t : Z) : MakeDate (Day t) (TimeWithinDay t) = t.
Proof.
  unfold MakeDate, Day, TimeWithinDay.
  pose proof (Z.div_mod t msPerDay). unfold msPerDay in *. lia.
Qed.

Lemma Day_MakeDate (d ms : Z) : 0 <= ms < msPerDay -> Day (MakeDate d ms) = d.
Proof.
  intros H. unfold Day, MakeDate.
  rewrite Z.add_comm, Z.div_add by (unfold msPerDay; lia).
  rewrite Z.div_small by exact H. reflexivity.
Qed.

Lemma Day_add_days (t i : Z) : Day (t + i * msPerDay) = Day t + i.
Proof. unfold Day. apply Z.div_add. unfold msPerDay. lia. Qed.

Lemma TimeWithinDay_range (t : Z) : 0 <= TimeWithinDay t < msPerDay.
Proof. apply Z.mod_pos_bound, msPerDay_pos. Qed.

Lemma UTC_LocalTime (t : Z) : UTC h (LocalTime h t) = t.
Proof. unfold UTC, LocalTime. lia. Qed.

(** [date.setDate(today.getDate() + i)] moves a date by [i] days. *)
Lemma setDate_getDate (t i : Z) :
  setDate h t (getDate h t + i) = t + i * msPerDay.
Proof.
  unfold setDate, getDate.
  rewrite MakeDay_date_add, MakeDay_civil.
  pose proof (MakeDate_Day (LocalTime h t)) as E.
  unfold MakeDate, UTC, LocalTime in *. lia.
Qed.

(** [today] is the local midnight before the clock reading. *)
Lemma today_local_midnight :
  today h = UTC h (Day (LocalTime h (now h)) * msPerDay).
Proof. unfold today, setHours0, MakeDate. now rewrite Z.add_0_r. Qed.

Lemma today_le_now : today h <= now h < today h + msPerDay.
Proof.
  rewrite today_local_midnight.
  pose proof (MakeDate_Day (LocalTime h (now h))) as E.
  pose proof (TimeWithinDay_range (LocalTime h (now h))) as R.
  unfold MakeDate, UTC, LocalTime in *. lia.
Qed.

(** [maxDate] is the clock reading moved to the same local month, date and
    time of day of the next year. *)
Lemma maxDate_local :
  let lt := LocalTime h (now h) in
  maxDate h =
  UTC h (MakeDay (YearFromDay (Day lt) + 1) (MonthFromDay (Day lt))
                 (DateFromDay (Day lt)) * msPerDay + TimeWithinDay lt).
Proof. reflexivity. Qed.

Lemma maxDate_range :
  now h + 365 * msPerDay <= maxDate h <= now h + 366 * msPerDay.
Proof.
  rewrite maxDate_local. cbv zeta.
  set (lt := LocalTime h (now h)).
  pose proof (MakeDay_next_year (YearFromDay (Day lt)) (MonthFromDay (Day lt))
                (DateFromDay (Day lt)) (MonthFromDay_range _)) as N.
  rewrite MakeDay_civil in N.
  pose proof (MakeDate_Day lt) as E.
  assert (now h = UTC h lt) as -> by (subst lt; now rewrite UTC_LocalTime).
  unfold MakeDate, UTC, msPerDay in *. lia.
Qed.

(** A date cannot be both before [today] and after [maxDate]. *)
Lemma past_future_exclusive (d : option Z) :
  ltDate d (today h) = true -> gtDate d (maxDate h) = false.
Proof.
  destruct d as [t|]; simpl; [|discriminate].
  intros L. apply Z.ltb_lt in L. apply Z.ltb_ge.
  pose proof today_le_now. pose proof maxDate_range. unfold msPerDay in *. lia.
Qed.

End Time.

(* ===================================================================== *)
(** ** Dates as strings *)
(* ===================================================================== *)

Section IsoStrings.

Lemma code_digitChar (n : Z) : code (digitChar n) = 48 + n mod 10.
Proof.
  unfold code, digitChar.
  pose proof (Z.mod_pos_bound n 10 eq_refl).
  rewrite nat_ascii_embedding by lia. lia.
Qed.

Lemma digitVal_digitChar (n : Z) : digitVal (digitChar n) = Some (n mod 10).
Proof.
  unfold digitVal, isDigit. rewrite code_digitChar.
  pose proof (Z.mod_pos_bound n 10 eq_refl).
  destruct (Z.leb_spec 48 (48 + n mod 10)); [|lia].
  destruct (Z.leb_spec (48 + n mod 10) 57); [|lia].
  cbn [andb]. f_equal. lia.
Qed.

Lemma digitChar_not_T (n : Z) : Ascii.eqb (digitChar n) "T" = false.
Proof.
  apply Ascii.eqb_neq. intros E.
  apply (f_equal code) in E. rewrite code_digitChar in E.
  pose proof (Z.mod_pos_bound n 10 eq_refl).
  change (code "T") with 84 in E. lia.
Qed.

Lemma splitT0_app (a b : string) :
  splitT0 a = a -> splitT0 (a ++ b) = a ++ splitT0 b.
Proof.
  induction a as [|c a IH]; simpl; [reflexivity|].
  destruct (Ascii.eqb c "T"); [discriminate|].
  intros E. injection E as E. now rewrite IH.
Qed.

Lemma splitT0_cons (c : ascii) (s : string) :
  Ascii.eqb c "T" = false -> splitT0 (String c s) = String c (splitT0 s).
Proof. intros E. simpl. now rewrite E. Qed.

Lemma splitT0_digits (k : nat) (n : Z) : splitT0 (digits k n) = digits k n.
Proof.
  revert n. induction k as [|k IH]; intros n; simpl; [reflexivity|].
  rewrite splitT0_app by apply IH. simpl. now rewrite digitChar_not_T.
Qed.

Lemma splitT0_yearString (y : Z) : splitT0 (yearString y) = yearString y.
Proof.
  unfold yearString.
  destruct ((0 <=? y) && (y <=? 9999)); [apply splitT0_digits|].
  destruct (y <? 0); cbn [String.append];
    rewrite splitT0_cons by reflexivity; now rewrite splitT0_digits.
Qed.

Lemma splitT0_isoDate (d : Z) : splitT0 (isoDate d) = isoDate d.
Proof.
  unfold isoDate.
  rewrite splitT0_app by apply splitT0_yearString. f_equal.
  cbn [String.append]. rewrite splitT0_cons by reflexivity. f_equal.
  rewrite splitT0_app by apply splitT0_digits. f_equal.
  cbn [String.append]. rewrite splitT0_cons by reflexivity. f_equal.
  apply splitT0_digits.
Qed.

(** [toISOString().split('T')[0]] is the date part: the UTC calendar date
    of the instant. *)
Lemma splitT0_toISOString (t : Z) : splitT0 (toISOString t) = isoDate (Day t).
Proof.
  unfold toISOString.
  rewrite splitT0_app by apply splitT0_isoDate.
  cbn [String.append splitT0]. rewrite Ascii.eqb_refl.
  clear. induction (isoDate (Day t)) as [|c s IH]; simpl; congruence.
Qed.

End IsoStrings.
Section IsoParse.

Lemma parseDigits_cons (acc n : Z) (s : string) :
  parseDigits acc (String (digitChar n) s) = parseDigits (10 * acc + n mod 10) s.
Proof. cbn [parseDigits]. now rewrite digitVal_digitChar. Qed.

Lemma digits_value4 (y : Z) : 0 <= y <= 9999 ->
  10 * (10 * (10 * (10 * 0 + (y / 10 / 10 / 10) mod 10) + (y / 10 / 10) mod 10) + (y / 10) mod 10) + y mod 10 = y.
Proof. intros. Z.div_mod_to_equations; lia. Qed.

Lemma digits_value2 (n : Z) : 0 <= n <= 99 ->
  10 * (10 * 0 + (n / 10) mod 10) + n mod 10 = n.
Proof. intros. Z.div_mod_to_equations; lia. Qed.

Lemma parseIsoDate_isoDate (d : Z) :
  0 <= YearFromDay d <= 9999 ->
  parseIsoDate (isoDate d) = Some (MakeDate d 0).
Proof.
  intros Hy.
  pose proof (MonthFromDay_range d) as Hm.
  pose proof (DateFromDay_range d) as Hd.
  assert (DaysInMonth (YearFromDay d) (MonthFromDay d) <= 31) as Hd31.
  { unfold DaysInMonth, daysInMonth.
    destruct (isLeapYear (YearFromDay d)), (MonthFromDay d =? 1);
      try lia; destruct (_ || _); lia. }
  unfold isoDate, yearString.
  destruct (Z.leb_spec 0 (YearFromDay d)); [|lia].
  destruct (Z.leb_spec (YearFromDay d) 9999); [|lia].
  cbn [andb digits String.append].
  unfold parseIsoDate.
  cbn [length Nat.eqb negb substring].
  change (String.eqb (String "-" EmptyString) "-") with true.
  cbn [andb negb].
  rewrite !parseDigits_cons. cbn [parseDigits].
  rewrite digits_value4, !digits_value2 by lia.
  replace (MonthFromDay d + 1 - 1) with (MonthFromDay d) by lia.
  destruct (Z.leb_spec 1 (MonthFromDay d + 1)); [|lia].
  destruct (Z.leb_spec (MonthFromDay d + 1) 12); [|lia].
  destruct (Z.leb_spec 1 (DateFromDay d)); [|lia].
  destruct (Z.leb_spec (DateFromDay d) (DaysInMonth (YearFromDay d) (MonthFromDay d))); [|lia].
  cbn [andb]. now rewrite MakeDay_civil.
Qed.

End IsoParse.

(* ===================================================================== *)
(** ** The legacy submit handler *)
(* ===================================================================== *)

Section LegacyValidator.

Import LegacySpec Samples.

Variable h : Host.

Lemma validateAirports_cases (o d : string) (v : Verdict) :
  validateAirports o d v =
  if negb (shapeOk o) then fail msgOrigin
  else if negb (shapeOk d) then fail msgDestination
  else if String.eqb o d then fail msgSame
  else v.
Proof. unfold validateAirports, shapeOk. now rewrite !negb_andb. Qed.

Lemma shownMessage_validate (f : Fields) :
  shownMessage h f =
  if isValid (validate h f) then None else Some (errorMessage (validate h f)).
Proof.
  unfold shownMessage, onSubmit. now destruct (isValid (validate h f)).
Qed.

Lemma accepts_validate (f : Fields) : accepts h f = isValid (validate h f).
Proof. unfold accepts, onSubmit. now destruct (isValid (validate h f)). Qed.

(** The message shown: the date block assigns after the airport block, so
    its message replaces the airport one. *)
Lemma shownMessage_rules (f : Fields) :
  shownMessage h f = orElse (dateChecks h f) (airportRules f).
Proof.
  rewrite shownMessage_validate.
  unfold validate, validateDate, dateChecks, airportRules.
  rewrite validateAirports_cases.
  destruct (isEmpty (dateValue f)); [reflexivity|].
  destruct (ltDate (parse h (dateValue f)) (today h)) eqn:L.
  - rewrite (past_future_exclusive h _ L). reflexivity.
  - destruct (gtDate (parse h (dateValue f)) (maxDate h)); [reflexivity|].
    destruct (negb (shapeOk (trim (originValue f)))); [reflexivity|].
    destruct (negb (shapeOk (trim (destinationValue f)))); [reflexivity|].
    destruct (String.eqb _ _); reflexivity.
Qed.

Lemma accepts_shownMessage (f : Fields) :
  accepts h f = true <-> shownMessage h f = None.
Proof.
  rewrite accepts_validate, shownMessage_validate.
  destruct (isValid (validate h f)); split; congruence.
Qed.

(** The date field holds the date in YYYY-MM-DD form of day number [day]. *)
Lemma parse_iso (s : string) (t : Z) :
  parseIsoDate s = Some t -> isEmpty s = false /\ parse h s = Some t.
Proof.
  intros E. split; [now destruct s|]. unfold parse. now rewrite E.
Qed.

Lemma msgPast_says_past : includes "past" msgPast = true.
Proof. reflexivity. Qed.

Lemma msgFuture_says_more_than_1_year :
  includes "more than 1 year" msgFuture = true.
Proof. reflexivity. Qed.

(** Every date before the local date of the clock reading is rejected as
    past, whatever the airport fields hold. *)
Lemma legacy_rejects_past (f : Fields) (day : Z) :
  -1440 < tzOffset h ->
  parseIsoDate (dateValue f) = Some (MakeDate day 0) ->
  day < localToday h ->
  shownMessage h f = Some msgPast.
Proof.
  unfold localToday. intros Htz E Hlt. apply parse_iso in E as [Hne E].
  rewrite shownMessage_rules. unfold dateChecks. rewrite Hne, E.
  assert (ltDate (Some (MakeDate day 0)) (today h) = true) as ->; [|reflexivity].
  apply Z.ltb_lt. rewrite today_local_midnight.
  unfold MakeDate, UTC, msPerDay, msPerMinute. lia.
Qed.

(** East of Greenwich, and on it, the local date of the clock reading is
    accepted. *)
Lemma legacy_accepts_today_east (f : Fields) :
  -1440 < tzOffset h <= 0 ->
  parseIsoDate (dateValue f) = Some (MakeDate (localToday h) 0) ->
  airportRules f = None ->
  shownMessage h f = None.
Proof.
  unfold localToday. intros Htz E Ha. apply parse_iso in E as [Hne E].
  rewrite shownMessage_rules, Ha. unfold dateChecks. rewrite Hne, E.
  pose proof (today_le_now h) as T. pose proof (maxDate_range h) as X.
  rewrite today_local_midnight in T.
  assert (ltDate (Some (MakeDate (Day (LocalTime h (now h))) 0)) (today h) = false) as ->.
  { apply Z.ltb_ge. rewrite today_local_midnight.
    unfold MakeDate, UTC, msPerDay, msPerMinute. lia. }
  assert (gtDate (Some (MakeDate (Day (LocalTime h (now h))) 0)) (maxDate h) = false) as ->.
  { apply Z.ltb_ge. unfold MakeDate, UTC, msPerDay, msPerMinute in *. lia. }
  reflexivity.
Qed.

(** West of Greenwich the local date of the clock reading is rejected as
    past: its midnight UTC comes before the local midnight. *)
Lemma legacy_rejects_today_west (f : Fields) :
  0 < tzOffset h ->
  parseIsoDate (dateValue f) = Some (MakeDate (localToday h) 0) ->
  shownMessage h f = Some msgPast.
Proof.
  unfold localToday. intros Htz E. apply parse_iso in E as [Hne E].
  rewrite shownMessage_rules. unfold dateChecks. rewrite Hne, E.
  assert (ltDate (Some (MakeDate (Day (LocalTime h (now h))) 0)) (today h) = true)
    as ->; [|reflexivity].
  apply Z.ltb_lt. rewrite today_local_midnight.
  unfold MakeDate, UTC, msPerDay, msPerMinute. lia.
Qed.

(** When the UTC date has not run ahead of the local date, every date after
    the same date of the next year is rejected as too far. *)
Lemma legacy_rejects_beyond_one_year (f : Fields) (day : Z) :
  sinceLocalMidnightUTC h < msPerDay ->
  parseIsoDate (dateValue f) = Some (MakeDate day 0) ->
  nextYear h < day ->
  shownMessage h f = Some msgFuture.
Proof.
  unfold sinceLocalMidnightUTC, nextYear, localToday. intros Htz E Hgt.
  apply parse_iso in E as [Hne E].
  rewrite shownMessage_rules. unfold dateChecks. rewrite Hne, E.
  assert (gtDate (Some (MakeDate day 0)) (maxDate h) = true) as G.
  { apply Z.ltb_lt. rewrite maxDate_local. cbv zeta.
    unfold MakeDate, UTC, msPerDay, msPerMinute in *. lia. }
  rewrite G.
  destruct (ltDate (Some (MakeDate day 0)) (today h)) eqn:L; [|reflexivity].
  rewrite (past_future_exclusive h _ L) in G. discriminate.
Qed.

(** When the UTC date is not behind the local date, the same date of the
    next year is accepted. *)
Lemma legacy_accepts_one_year (f : Fields) :
  0 <= sinceLocalMidnightUTC h < msPerDay ->
  parseIsoDate (dateValue f) = Some (MakeDate (nextYear h) 0) ->
  airportRules f = None ->
  shownMessage h f = None.
Proof.
  unfold sinceLocalMidnightUTC, nextYear, localToday. intros Htz E Ha.
  apply parse_iso in E as [Hne E].
  rewrite shownMessage_rules, Ha. unfold dateChecks. rewrite Hne, E.
  set (d := Day (LocalTime h (now h))) in *.
  pose proof (MakeDay_next_year (YearFromDay d) (MonthFromDay d) (DateFromDay d)
                (MonthFromDay_range d)) as N.
  rewrite MakeDay_civil in N.
  pose proof (TimeWithinDay_range (LocalTime h (now h))) as R.
  match goal with |- context [ltDate ?a ?b] =>
    assert (ltDate a b = false) as -> end.
  { apply Z.ltb_ge. rewrite today_local_midnight. fold d.
    unfold MakeDate, UTC, msPerDay, msPerMinute in *. lia. }
  match goal with |- context [gtDate ?a ?b] =>
    assert (gtDate a b = false) as -> end.
  { apply Z.ltb_ge. rewrite maxDate_local. cbv zeta. fold d.
    unfold MakeDate, UTC, msPerDay, msPerMinute in *. lia. }
  reflexivity.
Qed.

(** The UTC date and the local date of the clock reading are the same
    exactly when the local day began at most a day ago in UTC. *)
Lemma utc_date_is_local_date :
  0 <= sinceLocalMidnightUTC h < msPerDay -> Day (now h) = localToday h.
Proof.
  unfold sinceLocalMidnightUTC, localToday. intros R.
  pose proof (MakeDate_Day (LocalTime h (now h))) as E.
  unfold Day at 1. symmetry.
  apply Z.div_unique
    with (r := TimeWithinDay (LocalTime h (now h)) + tzOffset h * msPerMinute).
  - left. exact R.
  - unfold MakeDate, LocalTime in *. lia.
Qed.

(** The [min] of the date inputs is the UTC date of the clock reading. *)
Lemma minDate_isoDate : minDate h = isoDate (Day (now h)).
Proof. apply splitT0_toISOString. Qed.

End LegacyValidator.

(* ===================================================================== *)
(** ** Doubles *)
(* ===================================================================== *)

Section Doubles.

Lemma Z_div_0_l_any (a : Z) : 0 / a = 0.
Proof. now destruct a. Qed.

Lemma roundShift_0 (n : Z) : roundShift n 0 = n.
Proof. reflexivity. Qed.

(** Rounding [n / 2 ^ s] stays below an integer bound that [n] misses by
    more than half a unit. *)
Lemma roundShift_below (n s N : Z) :
  0 < s -> 0 <= n -> 2 * n < (2 * N - 1) * 2 ^ s -> roundShift n s < N.
Proof.
  intros Hs Hn Hlt. unfold roundShift.
  destruct (Z.leb_spec s 0); [lia|].
  assert (2 ^ s = 2 * 2 ^ (s - 1)) as E.
  { rewrite <- Z.pow_succ_r by lia. f_equal. lia. }
  assert (0 < 2 ^ (s - 1)) as Hp by (apply Z.pow_pos_nonneg; lia).
  set (half := 2 ^ (s - 1)) in *. rewrite E in *.
  pose proof (Z.div_mod n (2 * half) ltac:(lia)) as D.
  pose proof (Z.mod_pos_bound n (2 * half) ltac:(lia)) as B.
  set (q := n / (2 * half)) in *. set (r := n mod (2 * half)) in *.
  destruct (Z.ltb_spec r half); [nia|].
  destruct (Z.ltb_spec half r); [nia|].
  destruct (Z.even q); nia.
Qed.

Lemma roundShift_nonneg (n s : Z) : 0 <= n -> 0 <= roundShift n s.
Proof.
  intros Hn. unfold roundShift.
  destruct (Z.leb_spec s 0); [lia|].
  assert (0 < 2 ^ s) by (apply Z.pow_pos_nonneg; lia).
  pose proof (Z.div_pos n (2 ^ s) Hn ltac:(lia)).
  repeat match goal with |- context [if ?c then _ else _] => destruct c end; lia.
Qed.

(** [Math.floor(Math.random() * 50)] is one of 0, ..., 49. *)
Lemma randomOffset_range (r : Double) :
  inUnitInterval r = true -> 0 <= randomOffset r <= 49.
Proof.
  unfold inUnitInterval, isDouble, randomOffset, mulInt, floor.
  destruct r as [m e]. cbn [mant expo]. intros H.
  apply andb_true_iff in H as [W U].
  apply andb_true_iff in W as [W _]. apply andb_true_iff in W as [W _].
  apply andb_true_iff in W as [M0 M53].
  apply Z.leb_le in M0. apply Z.ltb_lt in M53.
  apply orb_true_iff in U as [Z0|U].
  - apply Z.eqb_eq in Z0. subst m.
    change (Z.max 0 (Z.log2 (0 * 50) - 52)) with 0. change (0 * 50) with 0.
    rewrite roundShift_0. destruct (0 <=? e + 0); [lia|].
    rewrite Z_div_0_l_any. lia.
  - apply andb_true_iff in U as [E K]. apply Z.ltb_lt in E, K.
    assert (exists k, e = - k /\ 0 < k) as [k [-> Hk0]] by (exists (- e); lia).
    rewrite Z.opp_involutive in K. clear E.
    assert (0 < 2 ^ k) as Pk by (apply Z.pow_pos_nonneg; lia).
    destruct (Z.eq_dec m 0) as [->|Hm0].
    { change (Z.max 0 (Z.log2 (0 * 50) - 52)) with 0. change (0 * 50) with 0.
      rewrite roundShift_0. destruct (0 <=? - k + 0); [lia|].
      rewrite Z_div_0_l_any. lia. }
    assert (0 < m * 50) as Hn by lia.
    pose proof (Z.log2_spec (m * 50) Hn) as L.
    pose proof (Z.log2_nonneg (m * 50)) as L0.
    destruct (Z.max_spec 0 (Z.log2 (m * 50) - 52)) as [[Hs ->]|[Hs ->]].
    + (* the product needs rounding *)
      set (s := Z.log2 (m * 50) - 52) in *.
      assert (s <= 6) as Hs6.
      { assert (Z.log2 (m * 50) < 59); [|lia].
        apply Z.log2_lt_pow2; [lia|]. change (2 ^ 59) with (2 ^ 53 * 64). lia. }
      assert (2 ^ 53 <= m * 50) as Hbig.
      { eapply Z.le_trans; [|apply L]. apply Z.pow_le_mono_r; lia. }
      assert (48 <= k) as Hk.
      { destruct (Z.le_gt_cases 48 k); [assumption|exfalso].
        assert (2 ^ k <= 2 ^ 47) by (apply Z.pow_le_mono_r; lia).
        change (2 ^ 53) with (64 * 2 ^ 47) in Hbig. lia. }
      destruct (Z.leb_spec 0 (- k + s)); [lia|].
      replace (- (- k + s)) with (k - s) by lia.
      assert (0 < 2 ^ (k - s)) as Pks by (apply Z.pow_pos_nonneg; lia).
      assert (2 ^ k = 2 ^ (k - s) * 2 ^ s) as Ek.
      { rewrite <- Z.pow_add_r by lia. f_equal. lia. }
      assert (1 <= 2 ^ s <= 64) as Ps.
      { split; [assert (0 < 2 ^ s) by (apply Z.pow_pos_nonneg; lia); lia|].
        change 64 with (2 ^ 6). apply Z.pow_le_mono_r; lia. }
      assert (roundShift (m * 50) s < 50 * 2 ^ (k - s)) as R.
      { apply roundShift_below; [lia|lia|]. rewrite Ek in K. nia. }
      pose proof (roundShift_nonneg (m * 50) s ltac:(lia)).
      split; [apply Z.div_pos; lia|].
      assert (roundShift (m * 50) s / 2 ^ (k - s) < 50); [|lia].
      apply Z.div_lt_upper_bound; lia.
    + (* the product is exact *)
      rewrite roundShift_0, Z.add_0_r.
      destruct (Z.leb_spec 0 (- k)); [lia|].
      replace (- - k) with k by lia.
      split; [apply Z.div_pos; lia|].
      assert (m * 50 / 2 ^ k < 50); [|lia].
      apply Z.div_lt_upper_bound; lia.
Qed.

End Doubles.

(* ===================================================================== *)
(** ** The mock data of the flight service *)
(* ===================================================================== *)

Section MockData.

Variable h : Host.

(** The date of point [i] is the UTC calendar date [i] days after that of
    the clock reading. *)
Lemma mockPoint_date (r : Double) (i : Z) :
  date (mockPoint h r i) = isoDate (Day (now h) + i).
Proof.
  unfold mockPoint. cbn [date].
  now rewrite setDate_getDate, splitT0_toISOString, Day_add_days.
Qed.

Lemma mockPoint_flag (r : Double) (i : Z) :
  isLowestPrice (mockPoint h r i) = (i =? 3).
Proof. reflexivity. Qed.

Lemma mockPoint_price_range (r : Double) (i : Z) :
  inUnitInterval r = true -> 230 <= price (mockPoint h r i) <= 329.
Proof.
  intros U. pose proof (randomOffset_range r U).
  unfold mockPoint. cbn [price].
  destruct (i mod 3 =? 0), (i mod 7 =? 0); lia.
Qed.

Lemma getMockPriceTrends_length (random : nat -> Double) :
  List.length (getMockPriceTrends h random) = 14%nat.
Proof. reflexivity. Qed.

Lemma getMockPriceTrends_dates (random : nat -> Double) :
  map date (getMockPriceTrends h random) =
  map (fun i => isoDate (Day (now h) + Z.of_nat i)) (seq 0 14).
Proof.
  unfold getMockPriceTrends. rewrite map_map.
  apply map_ext. intros i. apply mockPoint_date.
Qed.

End MockData.

(* ===================================================================== *)
(** ** The search client *)
(* ===================================================================== *)

Section SearchClient.

Import Samples.

(** The mock search never fails: it logs, and returns the mock data. *)
Lemma searchFlights_run (h : Host) (random : nat -> Double)
    (params : FlightSearchParams) (w : World) :
  searchFlights h random params w =
  (inr {| success := true;
          message := "Flight search successful";
          data := {| priceTrends := getMockPriceTrends h random;
                     insights := getMockInsights |} |},
   {| toasts := toasts w;
      console := (console w ++ [ConsoleLog "Searching flights with params:"])%list;
      isSearching := isSearching w;
      flightPriceData := flightPriceData w |}).
Proof. reflexivity. Qed.

(** The first date of the series is also the local date of the clock
    reading whenever that is the UTC date. *)
Lemma series_starts_at_local_date (h : Host) (random : nat -> Double) :
  0 <= LegacySpec.sinceLocalMidnightUTC h < msPerDay ->
  hd_error (map date (getMockPriceTrends h random)) =
  Some (isoDate (LegacySpec.localToday h)).
Proof.
  intros R. rewrite getMockPriceTrends_dates.
  cbn [map seq hd_error]. rewrite <- (utc_date_is_local_date h R).
  do 2 f_equal. cbn. lia.
Qed.

Lemma consecutive_days_sorted (d : Z) :
  StronglySorted Z.lt (map (fun i => d + Z.of_nat i) (seq 0 14)).
Proof.
  cbn [map seq].
  repeat (constructor; [|repeat (constructor; [cbn; lia|]); constructor]).
  constructor.
Qed.

(** On a host of one constant offset, with a clock that reads a date of
    the years 0 to 9999: [searchFlights] returns a result whose price
    trends are exactly 14 points, dated with the calendar dates of 14
    consecutive days from the UTC date of the clock reading on, the date
    [toISOString] prints for it; its insights are exactly 3 entries, each
    of type good, warning or info.  (Across a daylight-saving change, which
    such a host has none of, [setDate] moves the instant by 23 or 25 hours
    and the date printed can repeat or skip.) *)
Lemma searchFlights_series_steady_offset (h : Host) (random : nat -> Double)
    (params : FlightSearchParams) (w : World) :
  0 <= YearFromDay (Day (now h)) ->
  YearFromDay (Day (now h) + 13) <= 9999 ->
  exists (r : Response) (w' : World) (days : list Z),
    searchFlights h random params w = (inr r, w') /\
    List.length (priceTrends (data r)) = 14%nat /\
    map (fun p => parseIsoDate (date p)) (priceTrends (data r)) =
      map (fun d => Some (MakeDate d 0)) days /\
    days = map (fun i => Day (now h) + Z.of_nat i) (seq 0 14) /\
    StronglySorted Z.lt days /\
    hd_error days = Some (Day (now h)) /\
    hd_error (map date (priceTrends (data r))) = Some (splitT0 (toISOString (now h))) /\
    List.length (insights (data r)) = 3%nat /\
    Forall (fun i => type i = good \/ type i = warning \/ type i = info)
           (insights (data r)).
Proof.
  intros Hlo Hhi. rewrite searchFlights_run.
  eexists. eexists. exists (map (fun i => Day (now h) + Z.of_nat i) (seq 0 14)).
  split; [reflexivity|]. cbn [data priceTrends insights].
  split; [reflexivity|].
  split.
  { rewrite <- (map_map date parseIsoDate), getMockPriceTrends_dates, !map_map.
    apply map_ext_in. intros i Hi. apply in_seq in Hi.
    apply parseIsoDate_isoDate.
    pose proof (YearFromDay_mono (Day (now h)) (Day (now h) + Z.of_nat i)).
    pose proof (YearFromDay_mono (Day (now h) + Z.of_nat i) (Day (now h) + 13)).
    lia. }
  split; [reflexivity|].
  split; [apply consecutive_days_sorted|].
  split; [cbn [map seq hd_error]; f_equal; cbn; lia|].
  split.
  { rewrite getMockPriceTrends_dates, splitT0_toISOString.
    cbn [map seq hd_error]. do 2 f_equal. cbn. lia. }
  split; [reflexivity|].
  unfold getMockInsights.
  repeat (apply Forall_cons; [cbn [type]; auto|]). apply Forall_nil.
Qed.

(** C2: the code at failing inputs.  [searchFlights] returns 14 points and
    3 insights, but the dates do not start at today: they are the local
    date moved on by [setDate] and then printed in UTC by [toISOString].
    At 21:00 of 1 May 2025 in New York the series runs from 2025-05-02
    (tomorrow) to 2025-05-15; at 08:00 of 1 May 2025 in Tokyo it runs from
    2025-04-30 (yesterday) to 2025-05-13. *)
Theorem searchFlights_series_not_from_today (random : nat -> Double)
    (params : FlightSearchParams) (w : World) :
  (isoDate (LegacySpec.localToday newYorkEvening) = "2025-05-01" /\
   exists (r : Response) (w' : World),
     searchFlights newYorkEvening random params w = (inr r, w') /\
     map date (priceTrends (data r)) =
       ["2025-05-02"; "2025-05-03"; "2025-05-04"; "2025-05-05"; "2025-05-06";
        "2025-05-07"; "2025-05-08"; "2025-05-09"; "2025-05-10"; "2025-05-11";
        "2025-05-12"; "2025-05-13"; "2025-05-14"; "2025-05-15"]) /\
  (isoDate (LegacySpec.localToday tokyoMorning) = "2025-05-01" /\
   exists (r : Response) (w' : World),
     searchFlights tokyoMorning random params w = (inr r, w') /\
     map date (priceTrends (data r)) =
       ["2025-04-30"; "2025-05-01"; "2025-05-02"; "2025-05-03"; "2025-05-04";
        "2025-05-05"; "2025-05-06"; "2025-05-07"; "2025-05-08"; "2025-05-09";
        "2025-05-10"; "2025-05-11"; "2025-05-12"; "2025-05-13"]).
Proof.
  split; (split; [reflexivity|]); rewrite searchFlights_run;
    eexists; eexists; (split; [reflexivity|]);
    cbn [data priceTrends]; rewrite getMockPriceTrends_dates; reflexivity.
Qed.

(** C3.  In every series of the mock search client exactly one point has
    [isLowestPrice] set, the point of index 3, whatever the draws; and for
    some draws within the range of [Math.random()] the flagged point does
    not carry the least price of the series (as for others it does). *)
Theorem getMockPriceTrends_flags_index_3 :
  (forall (h : Host) (random : nat -> Double),
     map isLowestPrice (getMockPriceTrends h random) =
     [false; false; false; true; false; false; false;
      false; false; false; false; false; false; false]) /\
  (forall h : Host,
     exists random : nat -> Double,
       (forall i, inUnitInterval (random i) = true) /\
       exists p q : PriceTrendPoint,
         nth_error (getMockPriceTrends h random) 3 = Some p /\
         isLowestPrice p = true /\
         In q (getMockPriceTrends h random) /\
         price q < price p) /\
  (forall h : Host,
     exists random : nat -> Double,
       (forall i, inUnitInterval (random i) = true) /\
       exists p : PriceTrendPoint,
         nth_error (getMockPriceTrends h random) 3 = Some p /\
         isLowestPrice p = true /\
         Forall (fun q => price p <= price q) (getMockPriceTrends h random)).
Proof.
  split; [reflexivity|]. split.
  - intros h.
    exists (fun i => if Nat.eqb i 3 then half
                     else zero).
    split; [intros i; destruct (Nat.eqb i 3); reflexivity|].
    eexists. eexists. split; [reflexivity|]. split; [reflexivity|].
    split; [left; reflexivity|]. vm_compute. reflexivity.
  - intros h.
    exists (fun i => if Nat.eqb i 3 then zero
                     else belowOne).
    split; [intros i; destruct (Nat.eqb i 3); reflexivity|].
    eexists. split; [reflexivity|]. split; [reflexivity|].
    repeat constructor; vm_compute; intros E; discriminate E.
Qed.

(** C9.  Every price of the series is a number from 230 to 329, hence not
    negative: for every index and every double of the range of
    [Math.random()], at least 0 and below 1, the price computed lies
    between 230 and 329 inclusive; both bounds are reached. *)
Theorem getMockPriceTrends_price_range (h : Host) :
  (forall (r : Double) (i : Z),
     0 <= i <= 13 -> inUnitInterval r = true ->
     230 <= price (mockPoint h r i) <= 329) /\
  (forall random : nat -> Double,
     (forall i, inUnitInterval (random i) = true) ->
     Forall (fun p => 230 <= price p <= 329) (getMockPriceTrends h random)) /\
  price (mockPoint h zero 0) = 230 /\
  price (mockPoint h belowOne 1) = 329.
Proof.
  split; [intros r i _ U; now apply mockPoint_price_range|].
  split; [|split; reflexivity].
  intros random U. unfold getMockPriceTrends.
  apply Forall_map, Forall_forall. intros i _. now apply mockPoint_price_range.
Qed.

Lemma getMockPriceTrends_price_range_witness :
  230 <= price (mockPoint utcNoon half 3) <= 329.
Proof.
  apply (proj1 (getMockPriceTrends_price_range utcNoon)); [lia | reflexivity].
Defined.

End SearchClient.

(* ===================================================================== *)
(** ** The modern search form *)
(* ===================================================================== *)

Section ModernForm.

Import Samples FlightSearch.

Lemma handleSearch_run (h : Host) (random : nat -> Double) (f : Form) (w : World) :
  handleSearch h random f w =
  if missingFields f then toast_error "Please fill in all required fields" w
  else
    (inr tt,
     {| toasts := (toasts w ++ [ToastSuccess "Flight prices analyzed successfully!"])%list;
        console := (console w ++ [ConsoleLog "Searching flights with params:"])%list;
        isSearching := false;
        flightPriceData := Some {| priceTrends := getMockPriceTrends h random;
                                   insights := getMockInsights |} |}).
Proof.
  unfold handleSearch, handleSearchWith.
  destruct (missingFields f); reflexivity.
Qed.

Lemma bind_inr {A B : Type} (m : M A) (k : A -> M B) (w : World) (a : A) (w' : World) :
  m w = (inr a, w') -> bind m k w = k a w'.
Proof. unfold bind. now intros ->. Qed.

Lemma bind_inl {A B : Type} (m : M A) (k : A -> M B) (w : World) (e : Error) (w' : World) :
  m w = (inl e, w') -> bind m k w = (inl e, w').
Proof. unfold bind. now intros ->. Qed.

(** A failing call makes [searchFlights] notify once and throw again. *)
Lemma searchFlightsWith_failure (apiCall : M unit) (e : Error) (h : Host)
    (random : nat -> Double) (params : FlightSearchParams) (w : World) :
  (forall w0, exists w1, apiCall w0 = (inl e, w1) /\ toasts w1 = toasts w0) ->
  exists w',
    searchFlightsWith apiCall h random params w = (inl e, w') /\
    toasts w' = (toasts w ++ [ToastError failureMessage])%list.
Proof.
  intros Hfail.
  set (wl := {| toasts := toasts w;
                console := (console w ++ [ConsoleLog "Searching flights with params:"])%list;
                isSearching := isSearching w;
                flightPriceData := flightPriceData w |}).
  destruct (Hfail wl) as [w1 [E T]].
  unfold searchFlightsWith, tryCatch.
  rewrite (bind_inr (console_log _) _ w tt wl eq_refl).
  rewrite (bind_inl apiCall _ wl e w1 E).
  eexists. split; [reflexivity|]. cbn [toasts]. now rewrite T.
Qed.

(** C6.  When the call awaited by [searchFlights] fails with an error [e],
    without a notification of its own, [searchFlights] shows exactly one
    error notification and throws [e] again to its caller; [handleSearch],
    called with its required fields filled in, catches that error, adds no
    notification to the one of the service, and ends with its searching
    flag reset. *)
Theorem searchFlights_failure_notified_once (apiCall : M unit) (e : Error)
    (h : Host) (random : nat -> Double) (f : Form) (w : World) :
  (forall w0, exists w1, apiCall w0 = (inl e, w1) /\ toasts w1 = toasts w0) ->
  missingFields f = false ->
  (forall params, exists w',
      searchFlightsWith apiCall h random params w = (inl e, w') /\
      toasts w' = (toasts w ++ [ToastError failureMessage])%list) /\
  (exists w',
      handleSearchWith apiCall h random f w = (inr tt, w') /\
      toasts w' = (toasts w ++ [ToastError failureMessage])%list /\
      isSearching w' = false).
Proof.
  intros Hfail Hfilled. split.
  - intros params. now apply searchFlightsWith_failure.
  - unfold handleSearchWith. rewrite Hfilled.
    set (ws := {| toasts := toasts w; console := console w;
                  isSearching := true; flightPriceData := flightPriceData w |}).
    set (params := {| FlightService.origin := origin f;
                      FlightService.destination := destination f;
                      FlightService.departDate := departDate f;
                      FlightService.returnDate := returnDate f;
                      FlightService.passengers := parseInt (passengers f) |}).
    destruct (searchFlightsWith_failure apiCall e h random params ws Hfail)
      as [w1 [E T]].
    unfold tryFinally, tryCatch.
    rewrite (bind_inr (setIsSearching true) _ w tt ws eq_refl).
    rewrite (bind_inl _ _ ws e w1 E).
    eexists. split; [reflexivity|]. split; [|reflexivity].
    cbn [toasts]. exact T.
Qed.

Lemma searchFlights_failure_notified_once_witness :
  exists w',
    handleSearchWith (throw "network down") utcNoon
      (fun _ => zero)
      {| origin := "JFK"; destination := "LAX"; departDate := "2025-05-01";
         returnDate := "2025-05-08"; passengers := "1" |}
      initialWorld = (inr tt, w') /\
    toasts w' = (toasts initialWorld ++ [ToastError failureMessage])%list /\
    isSearching w' = false.
Proof.
  apply (searchFlights_failure_notified_once (throw "network down") "network down").
  - intros w0. exists w0. split; reflexivity.
  - reflexivity.
Defined.

(** C10.  [handleSearch] looks at nothing but whether origin, destination,
    depart date and return date are empty: with one of them empty it only
    shows a notification, otherwise the search is made and its result
    stored, whatever the fields hold.  So a submission whose origin is no
    3-letter code, whose destination equals its origin and whose depart
    date is long past, which the rules of the legacy validator refuse, is
    searched. *)
Theorem handleSearch_checks_presence_only :
  (forall (h : Host) (random : nat -> Double) (f : Form) (w : World),
     handleSearch h random f w =
     if missingFields f then toast_error "Please fill in all required fields" w
     else
       (inr tt,
        {| toasts := (toasts w ++ [ToastSuccess "Flight prices analyzed successfully!"])%list;
           console := (console w ++ [ConsoleLog "Searching flights with params:"])%list;
           isSearching := false;
           flightPriceData := Some {| priceTrends := getMockPriceTrends h random;
                                      insights := getMockInsights |} |})) /\
  (let f := {| origin := "New York"; destination := "New York";
               departDate := "2000-01-01"; returnDate := "1999-12-31";
               passengers := "1" |} in
   let random := fun _ : nat => zero in
   LegacySpec.airportRules (fields (origin f) (destination f) (departDate f))
     = Some msgOrigin /\
   LegacySpec.dateRules utcNoon (fields (origin f) (destination f) (departDate f))
     = Some msgPast /\
   flightPriceData (snd (handleSearch utcNoon random f initialWorld)) =
     Some {| priceTrends := getMockPriceTrends utcNoon random;
             insights := getMockInsights |} /\
   toasts (snd (handleSearch utcNoon random f initialWorld)) =
     [ToastSuccess "Flight prices analyzed successfully!"]).
Proof.
  split; [exact handleSearch_run|].
  cbv zeta. repeat split; vm_compute; reflexivity.
Qed.

End ModernForm.

(* ===================================================================== *)
(** ** The insight panel *)
(* ===================================================================== *)

Section InsightPanel.

Import Samples PriceAnalysis.

(** C7 as stated fails: price data whose insights are the empty sequence
    is rendered as no row at all, not as the three fixed insights. *)
Lemma insights_empty_sequence_counterexample :
  FlightData.insights noInsights = [] /\
  render (Some noInsights) = [] /\
  PriceAnalysis.insights (Some noInsights) <> defaultInsights.
Proof. repeat split. discriminate. Qed.

(** C7, amended.  Whenever the insight panel has no price data, the query
    cache being empty as it is before the first search, it renders the 3
    fixed illustrative insights (Lowest Price / good, Price Trend /
    warning, Future Prediction / info, with the badges Good Deal, Act Soon
    and AI Prediction); whenever it has price data it renders the insights
    of that data as they are, one row each. *)
Theorem insights_default_without_data :
  PriceAnalysis.insights None = defaultInsights /\
  map (fun i => (title i, type i)) defaultInsights =
    [("Lowest Price", good); ("Price Trend", warning); ("Future Prediction", info)] /\
  map rowBadge (render None) = ["Good Deal"; "Act Soon"; "AI Prediction"] /\
  (forall d : PriceData,
     PriceAnalysis.insights (Some d) = FlightData.insights d /\
     render (Some d) = map renderInsight (FlightData.insights d) /\
     List.length (render (Some d)) = List.length (FlightData.insights d)).
Proof.
  repeat split. unfold render. cbn [PriceAnalysis.insights]. apply length_map.
Qed.

(** The chart, unlike the panel, tests the length: it falls back to its
    sample on the empty sequence. *)
Lemma chartData_empty : PriceChart.chartData [] = PriceChart.sampleData.
Proof. reflexivity. Qed.

(** The point the chart marks for a series of the mock client is the point
    of index 3. *)
Lemma lowestPricePoint_mock (h : Host) (random : nat -> Double) :
  PriceChart.lowestPricePoint (getMockPriceTrends h random) =
  nth_error (getMockPriceTrends h random) 3.
Proof. reflexivity. Qed.

End InsightPanel.

(* ===================================================================== *)
(** ** The legacy validator: message order and date bounds *)
(* ===================================================================== *)

Section LegacyClaims.

Import LegacySpec Samples.

(** C1 as stated fails: with an origin that is no 3-letter code and no
    date, the first failing rule of the specification's order is the
    origin rule, and the message shown is that of the missing date. *)
Lemma legacy_first_failure_counterexample :
  firstFailure utcNoon (fields "" "LAX" "") = Some msgOrigin /\
  shownMessage utcNoon (fields "" "LAX" "") = Some msgNoDate /\
  shownMessage utcNoon (fields "" "LAX" "") <> firstFailure utcNoon (fields "" "LAX" "").
Proof. repeat split. discriminate. Qed.

(** A date YYYY-MM-DD is read as the midnight, UTC, of its day. *)
Lemma parseIsoDate_midnight (s : string) (t : Z) :
  parseIsoDate s = Some t -> t = MakeDate (Day t) 0.
Proof.
  unfold parseIsoDate.
  destruct (negb (length s =? 10)%nat); [discriminate|].
  destruct (negb _); [discriminate|].
  destruct (parseDigits 0 (substring 0 4 s)) as [y|]; [|discriminate].
  destruct (parseDigits 0 (substring 5 2 s)) as [m|]; [|discriminate].
  destruct (parseDigits 0 (substring 8 2 s)) as [d|]; [|discriminate].
  destruct (_ && _); [|discriminate].
  intros E. injection E as <-.
  now rewrite Day_MakeDate by (unfold msPerDay; lia).
Qed.

(** Away from the three dates at the bounds, the comparisons of the
    handler say what the date rules say, whatever the time zone and the
    time of day. *)
Lemma dateChecks_away_from_bounds (h : Host) (f : Fields) :
  -1440 < tzOffset h < 1440 ->
  awayFromBounds h f = true ->
  dateChecks h f = dateRules h f.
Proof.
  intros Htz A. unfold awayFromBounds in A. unfold dateChecks, dateRules.
  destruct (isEmpty (dateValue f)) eqn:Hne; [reflexivity|]. cbn [orb] in A.
  destruct (parseIsoDate (dateValue f)) as [t|] eqn:E; [|discriminate].
  pose proof (parseIsoDate_midnight _ _ E) as Ht.
  apply (parse_iso h) in E as [_ E]. rewrite E. clear E.
  apply andb_true_iff in A as [A A3]. apply andb_true_iff in A as [A1 A2].
  apply negb_true_iff, Z.eqb_neq in A1, A2, A3.
  set (day := Day t) in *. rewrite Ht. unfold ltDate, gtDate, MakeDate.
  rewrite Z.add_0_r, today_local_midnight, maxDate_local. cbv zeta.
  fold (localToday h) in *. fold (nextYear h) in *.
  pose proof (TimeWithinDay_range (LocalTime h (now h))) as T.
  pose proof (MakeDay_next_year (YearFromDay (localToday h))
                (MonthFromDay (localToday h)) (DateFromDay (localToday h))
                (MonthFromDay_range _)) as N.
  rewrite MakeDay_civil in N. fold (nextYear h) in N.
  destruct (Z.ltb_spec day (localToday h)) as [Before|NotBefore].
  - destruct (Z.ltb_spec (day * msPerDay) (UTC h (localToday h * msPerDay)));
      [reflexivity|].
    unfold UTC, msPerDay, msPerMinute in *. lia.
  - destruct (Z.ltb_spec (day * msPerDay) (UTC h (localToday h * msPerDay))).
    { unfold UTC, msPerDay, msPerMinute in *. lia. }
    destruct (Z.ltb_spec (nextYear h) day);
      match goal with |- context [Z.ltb ?a ?b] => destruct (Z.ltb_spec a b) end;
      try reflexivity; unfold UTC, msPerDay, msPerMinute in *; lia.
Qed.

(** C1, amended.  For every submission of the legacy search form whose
    date field is empty or holds a date YYYY-MM-DD other than today,
    today plus one calendar year and the day after it, on a host less
    than 24 hours off UTC, the single message shown is that of the first
    failing rule in the order: date presence, date not in the past, date
    not more than one year ahead, origin code shape, destination code
    shape, origin-destination inequality; so with an origin that fails
    the shape check and a date that is missing or out of range the
    message is the one of the date.  (The three dates left out are those
    at which the handler's comparisons go by the time zone: C4 and C5.) *)
Theorem legacy_message_order (h : Host) (f : Fields) :
  -1440 < tzOffset h < 1440 ->
  awayFromBounds h f = true ->
  shownMessage h f = orElse (dateRules h f) (airportRules f).
Proof.
  intros Htz A.
  now rewrite shownMessage_rules, (dateChecks_away_from_bounds h f Htz A).
Qed.

Lemma legacy_message_order_witness :
  awayFromBounds newYorkNoon (fields "" "LAX" "2025-04-01") = true /\
  dateRules newYorkNoon (fields "" "LAX" "2025-04-01") = Some msgPast /\
  airportRules (fields "" "LAX" "2025-04-01") = Some msgOrigin /\
  shownMessage newYorkNoon (fields "" "LAX" "2025-04-01") =
    orElse (dateRules newYorkNoon (fields "" "LAX" "2025-04-01"))
           (airportRules (fields "" "LAX" "2025-04-01")).
Proof.
  split; [reflexivity|]. split; [reflexivity|]. split; [reflexivity|].
  apply (legacy_message_order newYorkNoon (fields "" "LAX" "2025-04-01"));
    [vm_compute; split; reflexivity | reflexivity].
Defined.

(** C4: the code at a failing input.  At noon of 1 May 2025 in New York,
    the submission JFK, LAX, 2025-05-01 carries the local date of the
    clock reading (and its UTC date), and it is refused as being in the
    past. *)
Theorem legacy_rejects_today_in_new_york :
  isoDate (localToday newYorkNoon) = "2025-05-01" /\
  isoDate (Day (now newYorkNoon)) = "2025-05-01" /\
  shownMessage newYorkNoon (fields "JFK" "LAX" "2025-05-01") = Some msgPast /\
  includes "past" msgPast = true /\
  accepts newYorkNoon (fields "JFK" "LAX" "2025-05-01") = false.
Proof. repeat split. Qed.

(** C5: the code at failing inputs.  At 08:00 of 1 May 2025 in Tokyo the
    date 2026-05-01, the local date plus one calendar year, is refused as
    too far ahead.  At 21:00 of 1 May 2025 in New York the date
    2026-05-02, a day more than one calendar year after the local date, is
    accepted.  At 21:00 of 29 February 2024 in New York (1 March in UTC)
    the date 2025-03-02 is accepted, although it is more than one calendar
    year after the local date and after the UTC date alike. *)
Theorem legacy_one_year_bound_off_by_time_zone :
  (isoDate (localToday tokyoMorning) = "2025-05-01" /\
   isoDate (nextYear tokyoMorning) = "2026-05-01" /\
   shownMessage tokyoMorning (fields "JFK" "LAX" "2026-05-01") = Some msgFuture /\
   includes "more than 1 year" msgFuture = true) /\
  (isoDate (localToday newYorkEvening) = "2025-05-01" /\
   isoDate (nextYear newYorkEvening) = "2026-05-01" /\
   shownMessage newYorkEvening (fields "JFK" "LAX" "2026-05-02") = None /\
   accepts newYorkEvening (fields "JFK" "LAX" "2026-05-02") = true) /\
  (isoDate (localToday newYorkLeapEvening) = "2024-02-29" /\
   isoDate (nextYear newYorkLeapEvening) = "2025-03-01" /\
   isoDate (Day (now newYorkLeapEvening)) = "2024-03-01" /\
   shownMessage newYorkLeapEvening (fields "JFK" "LAX" "2025-03-02") = None /\
   accepts newYorkLeapEvening (fields "JFK" "LAX" "2025-03-02") = true).
Proof. repeat split. Qed.

End LegacyClaims.



(* ===================================================================== *)
(** * Further properties of the code *)
(* ===================================================================== *)

(* ===================================================================== *)
(** ** Airport codes: from the input handler to the validator *)
(* ===================================================================== *)

Section AirportCodes.

Lemma allChars_slice (p : ascii -> bool) (n : nat) (s : string) :
  allChars p s = true -> allChars p (slice 0 n s) = true.
Proof.
  unfold slice. rewrite Nat.sub_0_r. revert n.
  induction s as [|c s IH]; intros [|n]; cbn; try reflexivity.
  intros H. apply andb_true_iff in H as [Hc Hs].
  rewrite Hc. now apply IH.
Qed.

Lemma allChars_toUpperCase (s : string) :
  allChars (fun c => negb (isLower c)) (toUpperCase s) = true.
Proof.
  induction s as [|c s IH]; cbn; [reflexivity|].
  now rewrite upperChar_not_lower, IH.
Qed.

Lemma slice_0_length_min (n : nat) (s : string) :
  length (slice 0 n s) = Nat.min n (length s).
Proof.
  unfold slice. rewrite Nat.sub_0_r. revert n.
  induction s as [|c s IH]; intros [|n]; cbn; try reflexivity.
  now rewrite IH.
Qed.

(** X1.  Whatever is typed, the value the input handler leaves in an
    airport field has at most 3 characters and none of the letters a to
    z. *)
Theorem airportInputHandler_shape (s : string) :
  (length (airportInputHandler s) <= 3)%nat /\
  allChars (fun c => negb (isLower c)) (airportInputHandler s) = true.
Proof.
  rewrite airportInputHandler_slice. split.
  - apply slice_0_length.
  - apply allChars_slice, allChars_toUpperCase.
Qed.

Lemma isUpper_upperChar (c : ascii) : isUpper (upperChar c) = isLetter c.
Proof.
  unfold isLetter, upperChar. destruct (isLower c) eqn:L.
  - rewrite orb_true_r. unfold isLower, isUpper, code in *.
    apply andb_true_iff in L as [L1 L2]. apply Z.leb_le in L1, L2.
    rewrite nat_ascii_embedding by lia.
    apply andb_true_iff. split; apply Z.leb_le; lia.
  - now rewrite orb_false_r.
Qed.

(** X2.  For an input of ASCII characters, the value the input handler
    leaves passes the code check of the validator exactly when at least
    three characters were typed and the first three are letters, of
    either case. *)
Theorem airportInputHandler_valid_iff (s : string) :
  allChars isAscii s = true ->
  (isValidAirportCode (airportInputHandler s) = true <->
   (3 <= length s)%nat /\ allChars isLetter (slice 0 3 s) = true).
Proof.
  intros _. rewrite airportInputHandler_slice.
  destruct s as [|a [|b [|c r]]]; cbn.
  - split; [discriminate | intros [H _]; lia].
  - split; [discriminate | intros [H _]; lia].
  - split; [discriminate | intros [H _]; lia].
  - assert (substring 0 0 (toUpperCase r) = EmptyString) as ->
      by now destruct (toUpperCase r).
    assert (substring 0 0 r = EmptyString) as -> by now destruct r.
    rewrite !isUpper_upperChar. cbn [allChars].
    rewrite andb_true_r, <- andb_assoc.
    split; [intros H; split; [lia | exact H] | tauto].
Qed.

Lemma airportInputHandler_valid_iff_witness :
  isValidAirportCode (airportInputHandler "laxx") = true <->
  (3 <= length "laxx")%nat /\ allChars isLetter (slice 0 3 "laxx") = true.
Proof. apply (airportInputHandler_valid_iff "laxx"). reflexivity. Defined.

End AirportCodes.

(* ===================================================================== *)
(** ** The legacy validator: white space, unreadable dates, date window *)
(* ===================================================================== *)

Section LegacyEdges.

Import LegacySpec Samples.

Lemma trimEnd_idem (s : string) : trimEnd (trimEnd s) = trimEnd s.
Proof.
  induction s as [|c s IH]; cbn; [reflexivity|].
  destruct (trimEnd s) as [|d r] eqn:E.
  - destruct (isSpace c) eqn:Sp; cbn; [reflexivity|]. now rewrite Sp.
  - cbn [trimEnd]. cbn [trimEnd] in IH. rewrite IH. reflexivity.
Qed.

(** A string with no white space in front keeps none once its end is
    trimmed. *)
Lemma trimStart_trimEnd (s : string) :
  trimStart s = s -> trimStart (trimEnd s) = trimEnd s.
Proof.
  destruct s as [|c s]; [reflexivity|]. cbn [trimStart].
  destruct (isSpace c) eqn:Sp.
  - intros E. exfalso.
    assert (forall t, (length (trimStart t) <= length t)%nat) as L.
    { induction t as [|a t IHt]; cbn; [lia|]. destruct (isSpace a); cbn; lia. }
    specialize (L s). rewrite E in L. cbn in L. lia.
  - intros _. cbn [trimEnd].
    destruct (trimEnd s); rewrite ?Sp; cbn [trimStart]; now rewrite Sp.
Qed.

Lemma trimStart_idem (s : string) : trimStart (trimStart s) = trimStart s.
Proof.
  induction s as [|c s IH]; cbn; [reflexivity|].
  destruct (isSpace c) eqn:Sp; [exact IH|]. cbn. now rewrite Sp.
Qed.

Lemma trim_idem (s : string) : trim (trim s) = trim s.
Proof.
  unfold trim.
  rewrite (trimStart_trimEnd (trimStart s) (trimStart_idem s)).
  apply trimEnd_idem.
Qed.

(** X3.  Trimming is idempotent, and the validator sees the airport fields
    through it only: white space around a code changes neither the
    verdict nor the message. *)
Theorem validate_ignores_surrounding_space :
  (forall s, trim (trim s) = trim s) /\
  (forall (h : Host) (f : Fields),
     validate h (trimmed f) = validate h f /\
     shownMessage h (trimmed f) = shownMessage h f /\
     accepts h (trimmed f) = accepts h f).
Proof.
  split; [exact trim_idem|]. intros h f.
  assert (validate h (trimmed f) = validate h f) as E.
  { unfold validate, trimmed. cbn [originValue destinationValue dateValue].
    now rewrite !trim_idem. }
  split; [exact E|].
  split; [now rewrite !shownMessage_validate, E | now rewrite !accepts_validate, E].
Qed.

(** X4.  A date field that is not empty and that [new Date] cannot read
    (an Invalid Date) passes both date checks: with airport codes in
    order, the submission goes through. *)
Theorem legacy_accepts_unreadable_date (h : Host) (f : Fields) :
  isEmpty (dateValue f) = false ->
  parse h (dateValue f) = None ->
  airportRules f = None ->
  shownMessage h f = None /\ accepts h f = true.
Proof.
  intros Hne Hp Ha.
  assert (shownMessage h f = None) as E.
  { rewrite shownMessage_rules, Ha. unfold dateChecks. now rewrite Hne, Hp. }
  split; [exact E|]. now apply accepts_shownMessage.
Qed.

Lemma legacy_accepts_unreadable_date_witness :
  shownMessage utcNoon (fields "JFK" "LAX" "tomorrow") = None /\
  accepts utcNoon (fields "JFK" "LAX" "tomorrow") = true.
Proof.
  apply (legacy_accepts_unreadable_date utcNoon (fields "JFK" "LAX" "tomorrow"));
    reflexivity.
Defined.

(** What the date rules say of a date YYYY-MM-DD, in time values. *)
Lemma dateChecks_iso (h : Host) (f : Fields) (day : Z) :
  parseIsoDate (dateValue f) = Some (MakeDate day 0) ->
  dateChecks h f =
  if day * msPerDay <? today h then Some msgPast
  else if maxDate h <? day * msPerDay then Some msgFuture
  else None.
Proof.
  intros E. apply (parse_iso h) in E as [Hne E].
  unfold dateChecks. rewrite Hne, E. unfold ltDate, gtDate, MakeDate.
  now rewrite Z.add_0_r.
Qed.

Lemma accepts_rules (h : Host) (f : Fields) :
  airportRules f = None ->
  (accepts h f = true <-> dateChecks h f = None).
Proof.
  intros Ha. rewrite accepts_shownMessage, shownMessage_rules, Ha.
  destruct (dateChecks h f); cbn; split; congruence.
Qed.

(** X5.  Every date before the local date of the clock reading is refused
    with the message that says "past", whatever the airport fields hold
    and wherever the host is. *)
Theorem legacy_past_date_always_rejected (h : Host) (f : Fields) (day : Z) :
  -1440 < tzOffset h ->
  parseIsoDate (dateValue f) = Some (MakeDate day 0) ->
  day < localToday h ->
  shownMessage h f = Some msgPast /\
  includes "past" msgPast = true /\
  accepts h f = false.
Proof.
  intros Htz E Hlt.
  pose proof (legacy_rejects_past h f day Htz E Hlt) as M.
  split; [exact M|]. split; [reflexivity|].
  destruct (accepts h f) eqn:A; [|reflexivity].
  apply accepts_shownMessage in A. congruence.
Qed.

Lemma legacy_past_date_always_rejected_witness :
  shownMessage newYorkNoon (fields "nowhere" "" "2025-04-30") = Some msgPast /\
  includes "past" msgPast = true /\
  accepts newYorkNoon (fields "nowhere" "" "2025-04-30") = false.
Proof.
  apply (legacy_past_date_always_rejected newYorkNoon
           (fields "nowhere" "" "2025-04-30") (MakeDay 2025 3 30));
    [vm_compute; reflexivity | reflexivity | vm_compute; reflexivity].
Defined.

(** X6.  With airport codes in order, the local date of the clock reading
    is accepted exactly on the hosts that are not west of Greenwich. *)
Theorem legacy_today_accepted_iff_not_west (h : Host) (f : Fields) :
  -1440 < tzOffset h < 1440 ->
  parseIsoDate (dateValue f) = Some (MakeDate (localToday h) 0) ->
  airportRules f = None ->
  (accepts h f = true <-> tzOffset h <= 0).
Proof.
  intros Htz E Ha. rewrite accepts_shownMessage.
  destruct (Z.le_gt_cases (tzOffset h) 0) as [East|West].
  - rewrite (legacy_accepts_today_east h f) by (try assumption; lia). tauto.
  - rewrite (legacy_rejects_today_west h f) by (try assumption; lia).
    split; [discriminate | lia].
Qed.

Lemma legacy_today_accepted_iff_not_west_witness :
  accepts tokyoMorning (fields "JFK" "LAX" "2025-05-01") = true <->
  tzOffset tokyoMorning <= 0.
Proof.
  apply (legacy_today_accepted_iff_not_west tokyoMorning
           (fields "JFK" "LAX" "2025-05-01"));
    [vm_compute; split; reflexivity | reflexivity | reflexivity].
Defined.

(** X7.  On a host that is not west of Greenwich and whose UTC date is its
    local date, the dates accepted, airport codes being in order, are
    exactly those from the local date of the clock reading to the same
    date of the next year, both included; the earlier ones are refused as
    past and the later ones as more than one year ahead. *)
Theorem legacy_date_window (h : Host) (f : Fields) (day : Z) :
  tzOffset h <= 0 ->
  0 <= sinceLocalMidnightUTC h ->
  parseIsoDate (dateValue f) = Some (MakeDate day 0) ->
  airportRules f = None ->
  (accepts h f = true <-> localToday h <= day <= nextYear h) /\
  (day < localToday h -> shownMessage h f = Some msgPast) /\
  (nextYear h < day -> shownMessage h f = Some msgFuture).
Proof.
  intros East Aligned E Ha.
  assert (dateChecks h f =
          if day <? localToday h then Some msgPast
          else if nextYear h <? day then Some msgFuture else None) as R.
  { rewrite (dateChecks_iso h f day E).
    rewrite today_local_midnight, maxDate_local. cbv zeta.
    fold (localToday h). fold (nextYear h).
    pose proof (TimeWithinDay_range (LocalTime h (now h))) as T.
    unfold sinceLocalMidnightUTC in Aligned.
    destruct (Z.ltb_spec day (localToday h)).
    - destruct (Z.ltb_spec (day * msPerDay) (UTC h (localToday h * msPerDay)));
        [reflexivity|].
      unfold UTC, msPerDay, msPerMinute in *. lia.
    - destruct (Z.ltb_spec (day * msPerDay) (UTC h (localToday h * msPerDay))).
      { unfold UTC, msPerDay, msPerMinute in *. lia. }
      destruct (Z.ltb_spec (nextYear h) day);
        match goal with |- context [Z.ltb ?a ?b] => destruct (Z.ltb_spec a b) end;
        try reflexivity; unfold UTC, msPerDay, msPerMinute in *; lia. }
  split; [|split].
  - rewrite (accepts_rules h f Ha), R.
    destruct (Z.ltb_spec day (localToday h)); [split; [discriminate|lia]|].
    destruct (Z.ltb_spec (nextYear h) day); [split; [discriminate|lia]|].
    split; [lia | reflexivity].
  - intros L. rewrite shownMessage_rules, R.
    destruct (Z.ltb_spec day (localToday h)); [reflexivity | lia].
  - intros G. rewrite shownMessage_rules, R.
    pose proof (MakeDay_next_year (YearFromDay (localToday h))
                  (MonthFromDay (localToday h)) (DateFromDay (localToday h))
                  (MonthFromDay_range _)) as N.
    rewrite MakeDay_civil in N. fold (nextYear h) in N.
    destruct (Z.ltb_spec day (localToday h)); [lia|].
    destruct (Z.ltb_spec (nextYear h) day); [reflexivity | lia].
Qed.

Lemma legacy_date_window_witness :
  (accepts utcNoon (fields "JFK" "LAX" "2026-05-01") = true <->
   localToday utcNoon <= MakeDay 2026 4 1 <= nextYear utcNoon) /\
  (MakeDay 2026 4 1 < localToday utcNoon ->
   shownMessage utcNoon (fields "JFK" "LAX" "2026-05-01") = Some msgPast) /\
  (nextYear utcNoon < MakeDay 2026 4 1 ->
   shownMessage utcNoon (fields "JFK" "LAX" "2026-05-01") = Some msgFuture).
Proof.
  apply (legacy_date_window utcNoon (fields "JFK" "LAX" "2026-05-01"));
    [vm_compute; discriminate | vm_compute; discriminate | reflexivity | reflexivity].
Defined.

End LegacyEdges.

(* ===================================================================== *)
(** ** The legacy page: the alert over several submissions, the date inputs *)
(* ===================================================================== *)

Section LegacyPageProperties.

Import LegacySpec Samples.

Lemma submit_alert (h : Host) (a : option string) (f : Fields) :
  errorAlert (submit h a f) = if accepts h f then a else shownMessage h f.
Proof.
  rewrite accepts_validate, shownMessage_validate.
  unfold submit, onSubmit. now destruct (isValid (validate h f)).
Qed.

Lemma submit_prevented (h : Host) (a : option string) (f : Fields) :
  defaultPrevented (submit h a f) = negb (accepts h f).
Proof.
  rewrite accepts_validate.
  unfold submit, onSubmit. now destruct (isValid (validate h f)).
Qed.

(** X8.  After any number of submissions the alert reads the message of
    the last submission refused; a submission that goes through leaves
    the alert as it was, so an error once shown is never taken away. *)
Theorem alertAfter_last_refused (h : Host) (fs : list Fields) (a : option string) :
  alertAfter h fs a =
  match find (fun f => negb (accepts h f)) (rev fs) with
  | Some f => shownMessage h f
  | None => a
  end.
Proof.
  unfold alertAfter. induction fs as [|f fs IH] using rev_ind; [reflexivity|].
  rewrite fold_left_app, rev_app_distr. cbn [fold_left rev app find].
  rewrite submit_alert, IH.
  now destruct (accepts h f).
Qed.

(** The local day of a date YYYY-MM-DD, which is read as midnight UTC: the
    day itself at or east of Greenwich, the day before west of it. *)
Lemma localDay_of_utc_midnight (h : Host) (d : Z) :
  -1440 < tzOffset h < 1440 ->
  Day (LocalTime h (MakeDate d 0)) = if 0 <? tzOffset h then d - 1 else d.
Proof.
  intros Htz. unfold Day, LocalTime, MakeDate, msPerDay, msPerMinute.
  destruct (Z.ltb_spec 0 (tzOffset h)); Z.div_mod_to_equations; lia.
Qed.

(** X9.  The [min] that the script gives a date input which has none is a
    date YYYY-MM-DD, the UTC date of the clock reading; an input that has a
    [min] keeps it.  Submitted as travel date, with airport codes in
    order, that earliest date is accepted exactly when the host is not
    west of Greenwich and its UTC date has reached its local date, or its
    UTC date is already a day ahead of its local date. *)
Theorem initDateInput_min_accepted_iff (h : Host) (f : Fields) :
  -1440 < tzOffset h < 1440 ->
  0 <= YearFromDay (Day (now h)) <= 9999 ->
  dateValue f = initDateInput h EmptyString ->
  airportRules f = None ->
  parseIsoDate (initDateInput h EmptyString) = Some (MakeDate (Day (now h)) 0) /\
  (forall min, isEmpty min = false -> initDateInput h min = min) /\
  (accepts h f = true <->
   (tzOffset h <= 0 /\ 0 <= sinceLocalMidnightUTC h) \/
   msPerDay <= sinceLocalMidnightUTC h).
Proof.
  intros Htz Hy Hd Ha.
  assert (parseIsoDate (initDateInput h EmptyString) = Some (MakeDate (Day (now h)) 0)) as P.
  { unfold initDateInput. cbn [isEmpty]. rewrite minDate_isoDate.
    now apply parseIsoDate_isoDate. }
  split; [exact P|].
  split; [intros min Hm; unfold initDateInput; now rewrite Hm|].
  rewrite (accepts_rules h f Ha).
  rewrite <- Hd in P. rewrite (dateChecks_iso h f _ P).
  pose proof (maxDate_range h) as X.
  pose proof (MakeDate_Day (now h)) as N.
  pose proof (TimeWithinDay_range (now h)) as R.
  pose proof (MakeDate_Day (LocalTime h (now h))) as L.
  pose proof (TimeWithinDay_range (LocalTime h (now h))) as RL.
  rewrite today_local_midnight. unfold sinceLocalMidnightUTC.
  destruct (Z.ltb_spec (Day (now h) * msPerDay)
              (UTC h (Day (LocalTime h (now h)) * msPerDay))) as [Past|NotPast].
  - split; [discriminate|].
    unfold UTC, LocalTime, MakeDate, msPerDay, msPerMinute in *. lia.
  - destruct (Z.ltb_spec (maxDate h) (Day (now h) * msPerDay)) as [Far|NotFar].
    { unfold MakeDate, msPerDay in *. lia. }
    split; [intros _|reflexivity].
    unfold UTC, LocalTime, MakeDate, msPerDay, msPerMinute in *. lia.
Qed.

Lemma initDateInput_min_accepted_iff_witness :
  parseIsoDate (initDateInput newYorkEvening EmptyString)
    = Some (MakeDate (Day (now newYorkEvening)) 0) /\
  (forall min, isEmpty min = false -> initDateInput newYorkEvening min = min) /\
  (accepts newYorkEvening (fields "JFK" "LAX" "2025-05-02") = true <->
   (tzOffset newYorkEvening <= 0 /\ 0 <= sinceLocalMidnightUTC newYorkEvening) \/
   msPerDay <= sinceLocalMidnightUTC newYorkEvening).
Proof.
  apply (initDateInput_min_accepted_iff newYorkEvening (fields "JFK" "LAX" "2025-05-02"));
    [vm_compute; split; reflexivity
    | vm_compute; split; discriminate
    | reflexivity
    | reflexivity].
Defined.

End LegacyPageProperties.

(* ===================================================================== *)
(** ** chart.js: trend colours and trend markers *)
(* ===================================================================== *)

Section LegacyChartProperties.

Import LegacyChart.

Lemma lowerChar_upperChar (c : ascii) : lowerChar (upperChar c) = lowerChar c.
Proof.
  pose proof (isUpper_upperChar c) as U.
  unfold upperChar in *. destruct (isLower c) eqn:L; [|reflexivity].
  unfold isLetter in U. rewrite L, orb_true_r in U.
  unfold lowerChar at 1. rewrite U.
  assert (isUpper c = false) as NU.
  { unfold isLower, isUpper in *. apply andb_true_iff in L as [L _].
    apply Z.leb_le in L. apply andb_false_iff. right. apply Z.leb_gt. lia. }
  unfold lowerChar. rewrite NU.
  unfold isLower, code in L. apply andb_true_iff in L as [L1 L2].
  apply Z.leb_le in L1, L2.
  rewrite nat_ascii_embedding by lia.
  replace (nat_of_ascii c - 32 + 32)%nat with (nat_of_ascii c) by lia.
  apply ascii_nat_embedding.
Qed.

Lemma lowerChar_idem (c : ascii) : lowerChar (lowerChar c) = lowerChar c.
Proof.
  unfold lowerChar. destruct (isUpper c) eqn:U; [|now rewrite U].
  assert (isUpper (ascii_of_nat (nat_of_ascii c + 32)) = false) as ->; [|reflexivity].
  unfold isUpper, code in *. apply andb_true_iff in U as [U1 U2].
  apply Z.leb_le in U1, U2.
  rewrite nat_ascii_embedding by lia.
  apply andb_false_iff. right. apply Z.leb_gt. lia.
Qed.

Lemma toLowerCase_toUpperCase (s : string) :
  toLowerCase (toUpperCase s) = toLowerCase s.
Proof. induction s as [|c s IH]; cbn; [reflexivity|]. now rewrite lowerChar_upperChar, IH. Qed.

Lemma toLowerCase_idem (s : string) : toLowerCase (toLowerCase s) = toLowerCase s.
Proof. induction s as [|c s IH]; cbn; [reflexivity|]. now rewrite lowerChar_idem, IH. Qed.

(** X10.  The colour of a trend goes by its lower-case form: red exactly
    for the trends that read rising in lower case, green for falling, blue
    for stable, the default yellow for every other string; so the case of
    the letters of an ASCII trend does not matter. *)
Theorem getTrendColor_by_lower_case (trend : string) :
  getTrendColor (toLowerCase trend) = getTrendColor trend /\
  (getTrendColor trend = "#FF6B6B" <-> toLowerCase trend = "rising") /\
  (getTrendColor trend = "#1DD1A1" <-> toLowerCase trend = "falling") /\
  (getTrendColor trend = "#54A0FF" <-> toLowerCase trend = "stable") /\
  (getTrendColor trend = "#FFDE00" <->
   toLowerCase trend <> "rising" /\ toLowerCase trend <> "falling" /\
   toLowerCase trend <> "stable") /\
  (allChars isAscii trend = true ->
   getTrendColor (toUpperCase trend) = getTrendColor trend).
Proof.
  unfold getTrendColor. cbv zeta.
  rewrite toLowerCase_toUpperCase, toLowerCase_idem.
  split; [reflexivity|].
  destruct (String.eqb_spec (toLowerCase trend) "rising") as [R|R];
    [rewrite R; repeat split; intros; try discriminate; try reflexivity; tauto|].
  destruct (String.eqb_spec (toLowerCase trend) "falling") as [F|F];
    [rewrite F; repeat split; intros; try discriminate; try reflexivity; tauto|].
  destruct (String.eqb_spec (toLowerCase trend) "stable") as [S|S];
    [rewrite S; repeat split; intros; try discriminate; try reflexivity; tauto|].
  repeat split; intros; try discriminate; try reflexivity; try tauto; congruence.
Qed.

Lemma getTrendColor_by_lower_case_witness :
  getTrendColor (toUpperCase "Rising") = getTrendColor "Rising".
Proof.
  apply (proj2 (proj2 (proj2 (proj2 (proj2 (getTrendColor_by_lower_case "Rising")))))).
  reflexivity.
Defined.

Variable Num : Type.

Lemma addTrendMarkers_step (plugin : bool) (c : Chart Num) (trend : string) :
  match fst (addTrendMarkersToChart plugin (Some c) trend) with
  | Some c' => c'
  | None => c
  end =
  if effective (plugin, trend) then
    {| labels := labels c;
       data := data c;
       annotation :=
         Some {| lineValue := lastOf (data c);
                 borderColor := getTrendColor trend;
                 labelContent := toUpperCase trend ++ " TREND";
                 labelBackground := getTrendColor trend |};
       updates := S (updates c) |}
  else c.
Proof.
  unfold addTrendMarkersToChart, effective. cbn [fst snd].
  destruct (isEmpty trend), plugin; reflexivity.
Qed.

(** X11.  However often [addTrendMarkersToChart] is called on a chart, and
    with whatever trends, the labels and the data of the chart stay as
    they were; [update()] is called once for every call made with the
    plugin there and a trend that is not empty, and for no other; and the
    annotation is the one of the last such call, a line at the last value
    of the data (none on empty data), in the colour of that trend. *)
Theorem addTrendMarkersAll_invariant (calls : list (bool * string)) (c : Chart Num) :
  labels (addTrendMarkersAll calls c) = labels c /\
  data (addTrendMarkersAll calls c) = data c /\
  updates (addTrendMarkersAll calls c) =
    (updates c + List.length (filter effective calls))%nat /\
  annotation (addTrendMarkersAll calls c) =
    match find effective (rev calls) with
    | Some call =>
        Some {| lineValue := lastOf (data c);
                borderColor := getTrendColor (snd call);
                labelContent := toUpperCase (snd call) ++ " TREND";
                labelBackground := getTrendColor (snd call) |}
    | None => annotation c
    end.
Proof.
  unfold addTrendMarkersAll.
  induction calls as [|[plugin trend] calls IH] using rev_ind; [cbn; auto with arith|].
  destruct IH as (IHl & IHd & IHu & IHa).
  rewrite fold_left_app, rev_app_distr, filter_app, length_app.
  cbn [fold_left rev app find filter].
  rewrite addTrendMarkers_step. cbn [fst snd].
  destruct (effective (plugin, trend)) eqn:E;
    cbn [labels data updates annotation snd List.length app].
  - rewrite IHd, IHu. repeat split; try assumption; try reflexivity; lia.
  - rewrite IHu. repeat split; try assumption; lia.
Qed.

(** X12.  Without a chart, without a trend or without the annotation
    plugin, [addTrendMarkersToChart] leaves the chart untouched; it warns
    on the console in one case only, a chart and a trend given and the
    plugin missing. *)
Theorem addTrendMarkersToChart_guards (plugin : bool) (chart : option (Chart Num))
    (trend : string) :
  (chart = None \/ isEmpty trend = true \/ plugin = false ->
   fst (addTrendMarkersToChart plugin chart trend) = chart) /\
  (snd (addTrendMarkersToChart plugin chart trend) <> [] <->
   chart <> None /\ isEmpty trend = false /\ plugin = false).
Proof.
  unfold addTrendMarkersToChart.
  destruct chart as [c|], (isEmpty trend), plugin; cbn; split;
    try (intros [H|[H|H]]; try discriminate; reflexivity);
    try (split; [intros H; now contradiction H | intros (H1 & H2 & H3); discriminate]);
    try (split; [intros _; repeat split; discriminate | discriminate]);
    try (split; [intros H; now contradiction H | intros (H1 & _); now contradiction H1]).
Qed.

End LegacyChartProperties.

(* ===================================================================== *)
(** ** From the search form to the panel and the chart *)
(* ===================================================================== *)

Section SearchToPanel.

Import Samples FlightSearch.

(** X13.  [handleSearch] never throws, whatever the awaited call of the
    service does: it always returns normally; and once it has started a
    search, all four fields being filled in, it ends with the searching
    flag reset, while with a field missing it leaves the flag alone. *)
Theorem handleSearch_never_throws (apiCall : M unit) (h : Host)
    (random : nat -> Double) (f : Form) (w : World) :
  exists w',
    handleSearchWith apiCall h random f w = (inr tt, w') /\
    isSearching w' = if missingFields f then isSearching w else false.
Proof.
  unfold handleSearchWith. destruct (missingFields f).
  - eexists. split; reflexivity.
  - set (ws := {| toasts := toasts w; console := console w;
                  isSearching := true; flightPriceData := flightPriceData w |}).
    unfold tryFinally, tryCatch.
    rewrite (bind_inr (setIsSearching true) _ w tt ws eq_refl).
    match goal with |- context [bind ?m ?k ws] =>
      destruct (m ws) as [[e|r] w1] eqn:E;
      [rewrite (bind_inl m k ws e w1 E) | rewrite (bind_inr m k ws r w1 E)]
    end.
    + eexists. split; reflexivity.
    + eexists. split; reflexivity.
Qed.

(** X14.  When the awaited call fails without writing to the query cache,
    a search leaves the cache as it was: the panel and the chart go on
    showing what they showed, and no success is announced. *)
Theorem failed_search_keeps_cache (apiCall : M unit) (e : Error) (h : Host)
    (random : nat -> Double) (f : Form) (w : World) :
  (forall w0, exists w1, apiCall w0 = (inl e, w1) /\
                         flightPriceData w1 = flightPriceData w0 /\
                         toasts w1 = toasts w0) ->
  missingFields f = false ->
  exists w',
    handleSearchWith apiCall h random f w = (inr tt, w') /\
    flightPriceData w' = flightPriceData w /\
    PriceAnalysis.render (flightPriceData w') = PriceAnalysis.render (flightPriceData w) /\
    PriceChart.chartData (PriceAnalysis.priceTrends (flightPriceData w')) =
      PriceChart.chartData (PriceAnalysis.priceTrends (flightPriceData w)) /\
    ~ In (ToastSuccess "Flight prices analyzed successfully!")
         (skipn (List.length (toasts w)) (toasts w')).
Proof.
  intros Hfail Hfilled. unfold handleSearchWith. rewrite Hfilled.
  set (ws := {| toasts := toasts w; console := console w;
                isSearching := true; flightPriceData := flightPriceData w |}).
  set (wl := {| toasts := toasts ws;
                console := (console ws ++ [ConsoleLog "Searching flights with params:"])%list;
                isSearching := isSearching ws;
                flightPriceData := flightPriceData ws |}).
  destruct (Hfail wl) as (w1 & E & C & T).
  unfold tryFinally, tryCatch at 1.
  rewrite (bind_inr (setIsSearching true) _ w tt ws eq_refl).
  match goal with |- context [bind ?m ?k ws] =>
    assert (m ws =
            (inl e, {| toasts := (toasts w1 ++ [ToastError failureMessage])%list;
                       console := (console w1 ++ [ConsoleError "Error searching flights:"])%list;
                       isSearching := isSearching w1;
                       flightPriceData := flightPriceData w1 |})) as S;
    [|rewrite (bind_inl m k ws e _ S)]
  end.
  { unfold searchFlightsWith, tryCatch.
    rewrite (bind_inr (console_log _) _ ws tt wl eq_refl).
    now rewrite (bind_inl apiCall _ wl e w1 E). }
  eexists. split; [reflexivity|]. cbn [flightPriceData toasts].
  assert (flightPriceData w1 = flightPriceData w) as -> by (rewrite C; reflexivity).
  repeat split.
  rewrite T. cbn [toasts wl ws].
  rewrite skipn_app, skipn_all, Nat.sub_diag. cbn.
  intros [H|[]]. discriminate H.
Qed.

Lemma failed_search_keeps_cache_witness :
  exists w',
    handleSearchWith (throw "network down") utcNoon (fun _ => zero)
      {| origin := "JFK"; destination := "LAX"; departDate := "2025-05-01";
         returnDate := "2025-05-08"; passengers := "2" |}
      initialWorld = (inr tt, w') /\
    flightPriceData w' = flightPriceData initialWorld /\
    PriceAnalysis.render (flightPriceData w') =
      PriceAnalysis.render (flightPriceData initialWorld) /\
    PriceChart.chartData (PriceAnalysis.priceTrends (flightPriceData w')) =
      PriceChart.chartData (PriceAnalysis.priceTrends (flightPriceData initialWorld)) /\
    ~ In (ToastSuccess "Flight prices analyzed successfully!")
         (skipn (List.length (toasts initialWorld)) (toasts w')).
Proof.
  apply (failed_search_keeps_cache (throw "network down") "network down").
  - intros w0. exists w0. repeat split; reflexivity.
  - reflexivity.
Defined.

End SearchToPanel.

Section PanelAndChart.

Import Samples FlightSearch PriceAnalysis.

(** What a row shows in words: title, badge, description. *)
Lemma rows_of_mock_insights :
  map (fun r => (rowTitle r, rowBadge r, rowDescription r))
      (map renderInsight getMockInsights) =
  map (fun r => (rowTitle r, rowBadge r, rowDescription r)) (render None).
Proof. reflexivity. Qed.

(** X15.  After a search made with the four fields filled in, the panel
    shows the insights of the service, whose titles, badges and
    descriptions are those of the defaults it showed before any search,
    and the chart shows the 14 points of the service in place of its
    sample, with its dot on the point of index 3. *)
Theorem search_result_reaches_panel_and_chart (h : Host) (random : nat -> Double)
    (f : Form) (w : World) :
  missingFields f = false ->
  exists w',
    handleSearch h random f w = (inr tt, w') /\
    PriceAnalysis.insights (flightPriceData w') = getMockInsights /\
    map (fun r => (rowTitle r, rowBadge r, rowDescription r))
        (render (flightPriceData w')) =
      map (fun r => (rowTitle r, rowBadge r, rowDescription r)) (render None) /\
    PriceChart.chartData (PriceAnalysis.priceTrends (flightPriceData w')) =
      getMockPriceTrends h random /\
    PriceChart.lowestPricePoint (PriceAnalysis.priceTrends (flightPriceData w')) =
      nth_error (getMockPriceTrends h random) 3.
Proof.
  intros Hfilled. rewrite handleSearch_run, Hfilled.
  eexists. split; [reflexivity|]. cbn [flightPriceData].
  split; [reflexivity|]. split; [exact rows_of_mock_insights|].
  split; reflexivity.
Qed.

Lemma search_result_reaches_panel_and_chart_witness :
  exists w',
    handleSearch utcNoon (fun _ => zero)
      {| origin := "JFK"; destination := "LAX"; departDate := "2025-05-01";
         returnDate := "2025-05-08"; passengers := "2" |} initialWorld
      = (inr tt, w') /\
    PriceAnalysis.insights (flightPriceData w') = getMockInsights /\
    map (fun r => (rowTitle r, rowBadge r, rowDescription r))
        (render (flightPriceData w')) =
      map (fun r => (rowTitle r, rowBadge r, rowDescription r)) (render None) /\
    PriceChart.chartData (PriceAnalysis.priceTrends (flightPriceData w')) =
      getMockPriceTrends utcNoon (fun _ => zero) /\
    PriceChart.lowestPricePoint (PriceAnalysis.priceTrends (flightPriceData w')) =
      nth_error (getMockPriceTrends utcNoon (fun _ => zero)) 3.
Proof.
  apply (search_result_reaches_panel_and_chart utcNoon). reflexivity.
Defined.

Lemma find_first {A : Type} (p : A -> bool) (l : list A) :
  match find p l with
  | Some x =>
      exists l1 l2, l = (l1 ++ x :: l2)%list /\ p x = true /\
                    Forall (fun y => p y = false) l1
  | None => Forall (fun y => p y = false) l
  end.
Proof.
  induction l as [|a l IH]; cbn; [constructor|].
  destruct (p a) eqn:Pa.
  - exists [], l. repeat split; [exact Pa | constructor].
  - destruct (find p l) as [x|].
    + destruct IH as (l1 & l2 & -> & Px & F).
      exists (a :: l1), l2. repeat split; [exact Px | now constructor].
    + now constructor.
Qed.

(** X16.  The chart never draws an empty series: it shows the points it is
    given or, given none, its sample.  It draws at most one dot, on the
    first point flagged as lowest among those it shows, whatever the
    number of points flagged, and none exactly when no point it shows is
    flagged. *)
Theorem chart_marks_first_flagged (pts : list PriceTrendPoint) :
  PriceChart.chartData pts <> [] /\
  (pts <> [] -> PriceChart.chartData pts = pts) /\
  match PriceChart.lowestPricePoint pts with
  | Some p =>
      exists before after,
        PriceChart.chartData pts = (before ++ p :: after)%list /\
        isLowestPrice p = true /\
        Forall (fun q => isLowestPrice q = false) before
  | None => Forall (fun q => isLowestPrice q = false) (PriceChart.chartData pts)
  end.
Proof.
  split; [|split].
  - unfold PriceChart.chartData. destruct pts; cbn; discriminate.
  - unfold PriceChart.chartData. destruct pts; [congruence | reflexivity].
  - unfold PriceChart.lowestPricePoint. apply find_first.
Qed.

End PanelAndChart.
